(** * Note Resource Service (main.go)

    A shallow embedding of the five request handlers of main.go, of
    [initialization], and of the collaborators they call: the response
    writer of net/http, encoding/json's Marshal on the [Note] struct, and
    the [notes] table of the SQLite file as the SQL statements written in
    the handlers act on it. *)

From Stdlib Require Import ZArith List String Bool Lia Sorted.
Import ListNotations.
Local Open Scope string_scope.
Local Open Scope list_scope.
Local Open Scope Z_scope.

Set Warnings "-register-all".

Set Implicit Arguments.

(** ** Data model *)

(** [time.Time], as seconds since the Unix epoch in UTC; the fraction of a
    second and the zone play no part in the handlers. *)
Definition Time := Z.

(** [type Note struct { ID int; Title string; Content string; CreatedAt time.Time }].
    Go's [int] is 64 bits wide on the platforms go-sqlite3 builds for, so the
    conversion [int(id)] from the driver's int64 keeps the value. *)
Record Note := mkNote {
  ID : Z;
  Title : string;
  Content : string;
  CreatedAt : Time
}.

(** The zero [time.Time], 1 January of year 1. *)
Definition zeroTime : Time := -62135596800.

(** The zero value a [var note Note] starts from. *)
Definition zeroNote : Note := mkNote 0 "" "" zeroTime.

Definition set_CreatedAt (n : Note) (t : Time) : Note :=
  mkNote (ID n) (Title n) (Content n) t.

Definition set_ID (n : Note) (id : Z) : Note :=
  mkNote id (Title n) (Content n) (CreatedAt n).

(** Go errors. [sql.ErrNoRows] is a sentinel the code compares against; every
    other error is known to the handlers by its text only. *)
Inductive error :=
| ErrNoRows
| ErrText (msg : string).

Definition error_Error (e : error) : string :=
  match e with
  | ErrNoRows => "sql: no rows in result set"
  | ErrText msg => msg
  end.

(** A Go slice is nil or holds elements; [append] to nil allocates. *)
Inductive slice (A : Type) :=
| nil_slice
| mk_slice (elems : list A).
Arguments nil_slice {A}.

Definition append {A} (s : slice A) (x : A) : slice A :=
  match s with
  | nil_slice => mk_slice [x]
  | mk_slice l => mk_slice (l ++ [x])
  end.

(** ** encoding/json, on the values the handlers marshal *)

(** The JSON text [json.Marshal] produces, as the value it denotes. [JTime t]
    is the RFC 3339 string of [t]. *)
Inductive json :=
| JNull
| JNumber (z : Z)
| JString (s : string)
| JTime (t : Time)
| JArray (items : list json)
| JObject (fields : list (string * json)).

(** [Time.MarshalJSON] refuses a year outside [0,9999]. *)
Definition year_0000 : Z := -62167219200.
Definition year_9999_end : Z := 253402300799.

Definition time_MarshalJSON (t : Time) : json + string :=
  if (year_0000 <=? t) && (t <=? year_9999_end)
  then inl (JTime t)
  else inr "json: error calling MarshalJSON for type time.Time: Time.MarshalJSON: year outside of range [0,9999]".

(** [json.Marshal(note)]: the fields in declaration order under their tags. *)
Definition json_Marshal_Note (n : Note) : json + string :=
  match time_MarshalJSON (CreatedAt n) with
  | inr err => inr err
  | inl jt =>
      inl (JObject [("id", JNumber (ID n)); ("title", JString (Title n));
                    ("content", JString (Content n)); ("created_at", jt)])
  end.

Fixpoint marshal_elems (l : list Note) : list json + string :=
  match l with
  | [] => inl []
  | n :: rest =>
      match json_Marshal_Note n with
      | inr err => inr err
      | inl j =>
          match marshal_elems rest with
          | inr err => inr err
          | inl js => inl (j :: js)
          end
      end
  end.

(** [json.Marshal(notes)] for [notes []Note]: a nil slice encodes as [null],
    any other slice as an array. *)
Definition json_Marshal_Notes (s : slice Note) : json + string :=
  match s with
  | nil_slice => inl JNull
  | mk_slice l =>
      match marshal_elems l with
      | inr err => inr err
      | inl js => inl (JArray js)
      end
  end.

(** ** net/http: the response writer *)

Definition StatusOK : Z := 200.
Definition StatusCreated : Z := 201.
Definition StatusBadRequest : Z := 400.
Definition StatusNotFound : Z := 404.
Definition StatusInternalServerError : Z := 500.

(** What one [Write] puts on the wire: plain text, or the encoding of a JSON
    value. *)
Inductive Payload :=
| Text (s : string)
| Json (j : json).

(** [status = None]: the header has not been written yet. *)
Record ResponseWriter := mkResponse {
  header : list (string * string);
  status : option Z;
  body : list Payload
}.

(** What a handler is handed ([httptest.NewRecorder] in the tests). *)
Definition NewRecorder : ResponseWriter := mkResponse [] None [].

(** [w.Header().Set(key, value)] replaces what the key held. *)
Definition Header_Set (key value : string) (w : ResponseWriter) : ResponseWriter :=
  mkResponse
    ((key, value) :: filter (fun kv => negb (String.eqb (fst kv) key)) (header w))
    (status w) (body w).

(** [w.WriteHeader(code)]: only the first call counts. *)
Definition WriteHeader (code : Z) (w : ResponseWriter) : ResponseWriter :=
  match status w with
  | Some _ => w
  | None => mkResponse (header w) (Some code) (body w)
  end.

(** [w.Write(b)] writes the header with 200 first when none was written. *)
Definition Write (p : Payload) (w : ResponseWriter) : ResponseWriter :=
  let w := WriteHeader StatusOK w in
  mkResponse (header w) (status w) (body w ++ [p]).

Definition newline : string := String (Ascii.ascii_of_nat 10) EmptyString.

(** [http.Error(w, msg, code)]: plain-text headers, the status, then
    [fmt.Fprintln(w, msg)]. *)
Definition http_Error (w : ResponseWriter) (msg : string) (code : Z) : ResponseWriter :=
  let w := Header_Set "Content-Type" "text/plain; charset=utf-8" w in
  let w := Header_Set "X-Content-Type-Options" "nosniff" w in
  let w := WriteHeader code w in
  Write (Text (msg ++ newline)%string) w.

(** [http.NotFound(w, r)]. *)
Definition http_NotFound (w : ResponseWriter) : ResponseWriter :=
  http_Error w "404 page not found" StatusNotFound.

(** ** The request *)

(** [*http.Request], with the route parameters chi has bound. *)
Record Request := mkRequest {
  Body : string;
  URLParams : list (string * string)
}.

(** [chi.URLParam(r, key)]: the empty string when the key is not bound. *)
Fixpoint chi_URLParam_in (params : list (string * string)) (key : string) : string :=
  match params with
  | [] => ""
  | (k, v) :: rest => if String.eqb k key then v else chi_URLParam_in rest key
  end.

Definition chi_URLParam (r : Request) (key : string) : string :=
  chi_URLParam_in (URLParams r) key.

(** ** The storage engine: the [notes] table of ./notes.db *)

(** The table [notes (id INTEGER PRIMARY KEY AUTOINCREMENT, title TEXT,
    content TEXT, created_at DATETIME)]: its rows in scan order, each with the
    column types [createNote] inserts, and [seq], the entry SQLite keeps for
    the table in sqlite_sequence (0 while there is none). *)
Record Table := mkTable {
  rows : list Note;
  seq : Z
}.

(** The largest 64-bit rowid. *)
Definition MAX_ROWID : Z := 9223372036854775807.

Fixpoint max_rowid (l : list Note) : option Z :=
  match l with
  | [] => None
  | n :: rest =>
      match max_rowid rest with
      | None => Some (ID n)
      | Some m => Some (Z.max (ID n) m)
      end
  end.

(** The rowid an INSERT without an id gets under AUTOINCREMENT: one more than
    the largest rowid in the table (1 for an empty table), raised to [seq + 1];
    the statement fails once the largest rowid has been handed out. *)
Definition new_rowid (t : Table) : option Z :=
  let v :=
    match max_rowid (rows t) with
    | None => Some 1
    | Some m => if MAX_ROWID <=? m then None else Some (m + 1)
    end in
  match v with
  | None => None
  | Some v => if seq t =? MAX_ROWID then None else Some (Z.max v (seq t + 1))
  end.

(** [WHERE id=?] with the bound value coerced to a rowid ([None]: the text is
    no number, so no row compares equal). *)
Definition matches (key : option Z) (n : Note) : bool :=
  match key with
  | Some k => ID n =? k
  | None => false
  end.

Definition sql_insert (title content : string) (created_at : Time) (t : Table)
  : option (Z * Table) :=
  match new_rowid t with
  | None => None
  | Some id => Some (id, mkTable (rows t ++ [mkNote id title content created_at]) id)
  end.

Definition sql_update (title content : string) (key : option Z) (t : Table) : Table :=
  mkTable
    (map (fun n => if matches key n
                   then mkNote (ID n) title content (CreatedAt n)
                   else n) (rows t))
    (seq t).

Definition sql_delete (key : option Z) (t : Table) : Table :=
  mkTable (filter (fun n => negb (matches key n)) (rows t)) (seq t).

Definition sql_select (key : option Z) (t : Table) : option Note :=
  find (matches key) (rows t).

Definition rows_matching (key : option Z) (t : Table) : Z :=
  Z.of_nat (List.length (filter (matches key) (rows t))).

(** The statements the program sends, with their bound arguments. *)
Inductive Stmt :=
| CREATE_TABLE_IF_NOT_EXISTS_notes
| INSERT_INTO_notes (title content : string) (created_at : Time)
| UPDATE_notes_SET (title content : string) (id : string)
| DELETE_FROM_notes (id : string).

(** [sql.Result]. *)
Record Result := mkResult {
  LastInsertId : Z * option string;
  RowsAffected : Z * option string
}.

(** [*sql.DB]; the package-level variable and the locals that hold one are
    [option DB], [None] being the nil pointer. *)
Record DB := mkDB {
  driverName : string;
  dataSourceName : string
}.

(** The state of the process: the package-level [var db *sql.DB] and the
    database file ([None]: it holds no [notes] table). *)
Record World := mkWorld {
  db : option DB;
  disk : option Table
}.

(** What the surroundings decide for one call: the clock, and the failures
    the driver may report: of the statement (I/O, locking), of a column that
    does not convert in [Scan], and of [Result.LastInsertId], which then
    returns 0 beside its error. *)
Record Env := mkEnv {
  now : Time;
  stmt_err : option string;
  scan_err : Note -> option string;
  lastid_err : option string
}.

Definition no_such_table : string := "no such table: notes".
Definition database_full : string := "database or disk is full".

Inductive ExecOutcome :=
| ExecPanic
| ExecErr (err : string)
| ExecOk (res : Result) (s : World).

Inductive QueryRowOutcome :=
| RowPanic
| RowErr (err : error)
| RowOk (n : Note).

Inductive QueryOutcome :=
| QueryPanic
| QueryErr (err : string)
| QueryOk (found : list Note).

(** [rows.Scan(&note.ID, &note.Title, &note.Content, &note.CreatedAt)]. *)
Definition rows_Scan (e : Env) (row : Note) : Note + string :=
  match scan_err e row with
  | Some err => inr err
  | None => inl row
  end.

(** How a handler call ends: the response it wrote and the state it leaves,
    or a panic (a method called on the nil [db]), which net/http answers by
    dropping the connection. *)
Inductive Outcome :=
| Done (w : ResponseWriter) (s : World)
| Panic (s : World).

Definition world_of (o : Outcome) : World :=
  match o with
  | Done _ s => s
  | Panic s => s
  end.

Definition response_of (o : Outcome) : option ResponseWriter :=
  match o with
  | Done w _ => Some w
  | Panic _ => None
  end.

Section Service.

(** [json.NewDecoder(r.Body).Decode(&note)] on a zero [Note]: the decoded
    struct, or the text of the decode error. *)
Variable json_decode : string -> Note + string.

(** SQLite's coercion of a text value compared with the integer key. *)
Variable rowid_of_text : string -> option Z.

(** One statement against the file: the rowid it inserted, the rows it
    changed and the file afterwards, or the engine's error. For UPDATE and
    DELETE the first component is not read by any caller. *)
Definition run_stmt (q : Stmt) (d : option Table) : (Z * Z * option Table) + string :=
  match q, d with
  | CREATE_TABLE_IF_NOT_EXISTS_notes, None => inl (0, 0, Some (mkTable [] 0))
  | CREATE_TABLE_IF_NOT_EXISTS_notes, Some t => inl (0, 0, Some t)
  | _, None => inr no_such_table
  | INSERT_INTO_notes title content created_at, Some t =>
      match sql_insert title content created_at t with
      | None => inr database_full
      | Some (id, t') => inl (id, 1, Some t')
      end
  | UPDATE_notes_SET title content id, Some t =>
      let key := rowid_of_text id in
      inl (0, rows_matching key t, Some (sql_update title content key t))
  | DELETE_FROM_notes id, Some t =>
      let key := rowid_of_text id in
      inl (0, rows_matching key t, Some (sql_delete key t))
  end.

(** [handle.Exec(q, args...)]. *)
Definition db_Exec (e : Env) (handle : option DB) (q : Stmt) (s : World) : ExecOutcome :=
  match handle with
  | None => ExecPanic
  | Some _ =>
      match stmt_err e with
      | Some err => ExecErr err
      | None =>
          match run_stmt q (disk s) with
          | inr err => ExecErr err
          | inl (id, n, d') =>
              ExecOk
                (mkResult
                   (match lastid_err e with
                    | Some err => (0, Some err)
                    | None => (id, None)
                    end)
                   (n, None))
                (mkWorld (db s) d')
          end
      end
  end.

(** [handle.QueryRow("SELECT id, title, content, created_at FROM notes WHERE id=?", id).Scan(...)]. *)
Definition db_QueryRow_Scan (e : Env) (handle : option DB) (id : string) (s : World)
  : QueryRowOutcome :=
  match handle with
  | None => RowPanic
  | Some _ =>
      match stmt_err e with
      | Some err => RowErr (ErrText err)
      | None =>
          match disk s with
          | None => RowErr (ErrText no_such_table)
          | Some t =>
              match sql_select (rowid_of_text id) t with
              | None => RowErr ErrNoRows
              | Some row =>
                  match rows_Scan e row with
                  | inr err => RowErr (ErrText err)
                  | inl note => RowOk note
                  end
              end
          end
      end
  end.

(** [handle.Query("SELECT id, title, content, created_at FROM notes")]. *)
Definition db_Query (e : Env) (handle : option DB) (s : World) : QueryOutcome :=
  match handle with
  | None => QueryPanic
  | Some _ =>
      match stmt_err e with
      | Some err => QueryErr err
      | None =>
          match disk s with
          | None => QueryErr no_such_table
          | Some t => QueryOk (rows t)
          end
      end
  end.

(** [sql.Open]: the sqlite3 driver is registered by the import, so this
    returns a handle; the file is touched by the first statement. *)
Definition sql_Open (driver dsn : string) : DB + string :=
  inl (mkDB driver dsn).

(** ** main.go *)

(** [initialization]: [db, err := sql.Open(...)] declares a [db] local to the
    function; the CREATE TABLE goes through that local handle. [None]: the
    process ended in [log.Fatal]. *)
Definition initialization (e : Env) (s : World) : option World :=
  match sql_Open "sqlite3" "./notes.db" with
  | inr _ => None
  | inl local_db =>
      match db_Exec e (Some local_db) CREATE_TABLE_IF_NOT_EXISTS_notes s with
      | ExecPanic => None
      | ExecErr _ => None
      | ExecOk _ s' => Some s'
      end
  end.

Definition createNote (e : Env) (w : ResponseWriter) (r : Request) (s : World) : Outcome :=
  match json_decode (Body r) with
  | inr err => Done (http_Error w err StatusBadRequest) s
  | inl note =>
      let note := set_CreatedAt note (now e) in
      match db_Exec e (db s)
              (INSERT_INTO_notes (Title note) (Content note) (CreatedAt note)) s with
      | ExecPanic => Panic s
      | ExecErr err => Done (http_Error w err StatusInternalServerError) s
      | ExecOk result s' =>
          let id := fst (LastInsertId result) in
          let note := set_ID note id in
          match json_Marshal_Note note with
          | inr err => Done (http_Error w err StatusBadRequest) s'
          | inl resp =>
              let w := Header_Set "Content-Type" "application/json" w in
              let w := WriteHeader StatusCreated w in
              Done (Write (Json resp) w) s'
          end
      end
  end.

Definition getNote (e : Env) (w : ResponseWriter) (r : Request) (s : World) : Outcome :=
  let id := chi_URLParam r "id" in
  match db_QueryRow_Scan e (db s) id s with
  | RowPanic => Panic s
  | RowErr ErrNoRows => Done (http_NotFound w) s
  | RowErr err => Done (http_Error w (error_Error err) StatusInternalServerError) s
  | RowOk note =>
      match json_Marshal_Note note with
      | inr err => Done (http_Error w err StatusBadRequest) s
      | inl resp =>
          let w := Header_Set "Content-Type" "application/json" w in
          let w := WriteHeader StatusOK w in
          Done (Write (Json resp) w) s
      end
  end.

(** The loop [for rows.Next() { ... rows.Scan ...; notes = append(notes, note) }]. *)
Fixpoint scan_loop (e : Env) (found : list Note) (notes : slice Note) : slice Note + string :=
  match found with
  | [] => inl notes
  | row :: rest =>
      match rows_Scan e row with
      | inr err => inr err
      | inl note => scan_loop e rest (append notes note)
      end
  end.

Definition getNotes (e : Env) (w : ResponseWriter) (r : Request) (s : World) : Outcome :=
  match db_Query e (db s) s with
  | QueryPanic => Panic s
  | QueryErr err => Done (http_Error w err StatusInternalServerError) s
  | QueryOk found =>
      match scan_loop e found nil_slice with
      | inr err => Done (http_Error w err StatusInternalServerError) s
      | inl notes =>
          match json_Marshal_Notes notes with
          | inr err => Done (http_Error w err StatusBadRequest) s
          | inl resp =>
              let w := Header_Set "Content-Type" "application/json" w in
              let w := WriteHeader StatusOK w in
              Done (Write (Json resp) w) s
          end
      end
  end.

Definition updateNote (e : Env) (w : ResponseWriter) (r : Request) (s : World) : Outcome :=
  let id := chi_URLParam r "id" in
  match json_decode (Body r) with
  | inr err => Done (http_Error w err StatusBadRequest) s
  | inl note =>
      match db_Exec e (db s) (UPDATE_notes_SET (Title note) (Content note) id) s with
      | ExecPanic => Panic s
      | ExecErr err => Done (http_Error w err StatusInternalServerError) s
      | ExecOk _ s' =>
          let w := Header_Set "Content-Type" "application/json" w in
          Done (WriteHeader StatusOK w) s'
      end
  end.

Definition deleteNote (e : Env) (w : ResponseWriter) (r : Request) (s : World) : Outcome :=
  let id := chi_URLParam r "id" in
  match db_Exec e (db s) (DELETE_FROM_notes id) s with
  | ExecPanic => Panic s
  | ExecErr err => Done (http_Error w err StatusInternalServerError) s
  | ExecOk _ s' =>
      let w := Header_Set "Content-Type" "application/json" w in
      Done (WriteHeader StatusOK w) s'
  end.

(** The routes [main] registers. *)
Inductive Route :=
| POST_note
| GET_note_id
| GET_notes
| PATCH_note_id
| DELETE_note_id.

Definition handler (rt : Route) : Env -> ResponseWriter -> Request -> World -> Outcome :=
  match rt with
  | POST_note => createNote
  | GET_note_id => getNote
  | GET_notes => getNotes
  | PATCH_note_id => updateNote
  | DELETE_note_id => deleteNote
  end.

(** One request served, and a sequence of them. *)
Record Call := mkCall {
  route : Route;
  env : Env;
  request : Request
}.

Definition serve (c : Call) (s : World) : Outcome :=
  handler (route c) (env c) NewRecorder (request c) s.

Fixpoint run (calls : list Call) (s : World) : World :=
  match calls with
  | [] => s
  | c :: rest => run rest (world_of (serve c s))
  end.

(** The rowid the INSERT of a call hands out, if the call gets that far. *)
Definition assigned_id (c : Call) (s : World) : option Z :=
  match route c, json_decode (Body (request c)), db s, stmt_err (env c), disk s with
  | POST_note, inl _, Some _, None, Some t => new_rowid t
  | _, _, _, _, _ => None
  end.

Fixpoint assigned_ids (calls : list Call) (s : World) : list Z :=
  match calls with
  | [] => []
  | c :: rest =>
      match assigned_id c s with
      | Some id => id :: assigned_ids rest (world_of (serve c s))
      | None => assigned_ids rest (world_of (serve c s))
      end
  end.

(** The state [main] starts from: [db] is nil until assigned. *)
Definition boot (d : option Table) : World := mkWorld None d.

End Service.

(** ** The replies the handlers build on a fresh writer *)

Definition application_json : list (string * string) :=
  [("Content-Type", "application/json")].

Definition text_plain : list (string * string) :=
  [("X-Content-Type-Options", "nosniff");
   ("Content-Type", "text/plain; charset=utf-8")].

(** A JSON document under the given status. *)
Definition json_reply (code : Z) (j : json) : ResponseWriter :=
  mkResponse application_json (Some code) [Json j].

(** The status alone, nothing written after it. *)
Definition empty_reply (code : Z) : ResponseWriter :=
  mkResponse application_json (Some code) [].

(** What [http.Error] leaves: the message and a line end, as plain text. *)
Definition error_reply (code : Z) (msg : string) : ResponseWriter :=
  mkResponse text_plain (Some code) [Text (msg ++ newline)%string].

Definition note_json (n : Note) : json :=
  JObject [("id", JNumber (ID n)); ("title", JString (Title n));
           ("content", JString (Content n)); ("created_at", JTime (CreatedAt n))].

Definition time_in_range (t : Time) : Prop := year_0000 <= t <= year_9999_end.

(** The sqlite_sequence entry of the file, 0 without a table. *)
Definition world_seq (s : World) : Z :=
  match disk s with
  | Some t => seq t
  | None => 0
  end.

(** ** Sample collaborators and inputs *)

Definition quote : string := String (Ascii.ascii_of_nat 34) EmptyString.

Definition quoted (s : string) : string := (quote ++ s ++ quote)%string.

(** The request body [{ title: ..., content: ... }] as a client sends it. *)
Definition body_of (title content : string) : string :=
  ("{" ++ quoted "title" ++ ":" ++ quoted title ++ ","
       ++ quoted "content" ++ ":" ++ quoted content ++ "}")%string.

(** The decoder on the bodies of the walk-through (POST Test/Body, PATCH
    New/Updated, the empty object); every other text stands for the malformed
    body [not json] and gets its error. *)
Definition sample_decode (b : string) : Note + string :=
  if String.eqb b (body_of "Test" "Body") then inl (mkNote 0 "Test" "Body" zeroTime)
  else if String.eqb b (body_of "New" "Updated") then inl (mkNote 0 "New" "Updated" zeroTime)
  else if String.eqb b "{}" then inl zeroNote
  else inr "invalid character 'o' in literal null (expecting 'u')"%string.

Definition digit_of (c : Ascii.ascii) : option Z :=
  let n := Z.of_nat (Ascii.nat_of_ascii c) in
  if (48 <=? n) && (n <=? 57) then Some (n - 48) else None.

Fixpoint digits_value (acc : Z) (s : string) : option Z :=
  match s with
  | EmptyString => Some acc
  | String c rest =>
      match digit_of c with
      | None => None
      | Some d => digits_value (10 * acc + d) rest
      end
  end.

(** The coercion on plain decimal numerals within the rowid range. *)
Definition decimal_rowid (s : string) : option Z :=
  match s with
  | EmptyString => None
  | _ =>
      match digits_value 0 s with
      | Some v => if v <=? MAX_ROWID then Some v else None
      | None => None
      end
  end.

(** A call during which nothing fails, at the given clock reading. *)
Definition calm (t : Time) : Env := mkEnv t None (fun _ => None) None.

(** 2024-01-01T00:00:00Z and one minute later. *)
Definition t0 : Time := 1704067200.
Definition t1 : Time := 1704067260.

Definition notes_db : DB := mkDB "sqlite3" "./notes.db".

(** A request for [/note/{id}] and one carrying a body. *)
Definition with_id (id : string) (b : string) : Request := mkRequest b [("id", id)].
Definition with_body (b : string) : Request := mkRequest b [].

(** A served store with an open handle. *)
Definition open_world (t : Table) : World := mkWorld (Some notes_db) (Some t).

Definition empty_table : Table := mkTable [] 0.

Definition one_note : Table := mkTable [mkNote 1 "Test" "Body" t0] 1.

Definition not_json_error : string :=
  "invalid character 'o' in literal null (expecting 'u')".

Definition test_body : string := body_of "Test" "Body".
Definition new_body : string := body_of "New" "Updated".

(** What the two bodies decode to. *)
Definition test_payload : Note := mkNote 0 "Test" "Body" zeroTime.
Definition new_payload : Note := mkNote 0 "New" "Updated" zeroTime.

(** A call in which the INSERT goes through and the driver then fails to
    report the rowid. *)
Definition lost_id (t : Time) : Env :=
  mkEnv t None (fun _ => None) (Some "sqlite3: last insert id unavailable").

(** A note is created and deleted again: the table is empty, the sequence
    entry is 1. *)
Definition create_then_delete : list Call :=
  [mkCall POST_note (calm t0) (with_body test_body);
   mkCall DELETE_note_id (calm t0) (with_id "1" "")].

(** ** Shape of a table and of a served process *)

(** The rows lie in strictly increasing rowid order (so no rowid occurs
    twice), and none exceeds the sequence entry. *)
Definition keyed (t : Table) : Prop :=
  StronglySorted Z.lt (map ID (rows t)) /\
  Forall (fun n => ID n <= seq t) (rows t).

(** The clock readings of all rows marshal. *)
Definition rows_in_range (t : Table) : Prop :=
  Forall (fun n => time_in_range (CreatedAt n)) (rows t).

(** [main]: [initialization], then the router answers the requests as they
    arrive, each by the handler of its route. [defer db.Close()] never runs,
    as [http.ListenAndServe] only returns into [log.Fatal]. [None]: the
    process ended inside [initialization]. *)
Definition main (json_decode : string -> Note + string)
           (rowid_of_text : string -> option Z)
           (e : Env) (calls : list Call) (d : option Table) : option World :=
  match initialization rowid_of_text e (boot d) with
  | None => None
  | Some s => Some (run json_decode rowid_of_text calls s)
  end.

(** The status codes a route may answer with. *)
Definition statuses (rt : Route) : list Z :=
  match rt with
  | POST_note => [StatusCreated; StatusBadRequest; StatusInternalServerError]
  | GET_note_id => [StatusOK; StatusBadRequest; StatusNotFound; StatusInternalServerError]
  | GET_notes => [StatusOK; StatusBadRequest; StatusInternalServerError]
  | PATCH_note_id => [StatusOK; StatusBadRequest; StatusInternalServerError]
  | DELETE_note_id => [StatusOK; StatusInternalServerError]
  end.

(** What a reply looks like for its status code: below 400 the JSON
    content type and either nothing or one JSON document, from 400 on the
    plain-text headers of [http.Error] and one line of text. *)
Definition well_formed_reply (w : ResponseWriter) (code : Z) : Prop :=
  status w = Some code /\
  header w = (if code <? 400 then application_json else text_plain) /\
  (code < 400 -> body w = [] \/ exists j, body w = [Json j]) /\
  (400 <= code -> exists msg, body w = [Text (msg ++ newline)%string]).

(** More sample inputs. *)

Definition two_notes : Table :=
  mkTable [mkNote 1 "Test" "Body" t0; mkNote 3 "New" "Updated" t1] 4.

(** 1 January of year 10000. *)
Definition year_10000 : Time := 253402300800.

Definition marshal_time_error : string :=
  "json: error calling MarshalJSON for type time.Time: Time.MarshalJSON: year outside of range [0,9999]".



(** A body that carries an id beside an empty title and content, and a
    decoder that knows it. *)
Definition id_body : string := ("{" ++ quoted "id" ++ ":7}")%string.

Definition lenient_decode (b : string) : Note + string :=
  if String.eqb b id_body then inl (mkNote 7 "" "" t1) else sample_decode b.

Definition sample_calls : list Call :=
  [mkCall POST_note (calm t0) (with_body test_body);
   mkCall GET_notes (calm t0) (with_body "");
   mkCall PATCH_note_id (calm t1) (with_id "1" new_body);
   mkCall POST_note (calm t1) (with_body new_body);
   mkCall DELETE_note_id (calm t1) (with_id "1" "");
   mkCall GET_note_id (calm t1) (with_id "1" "");
   mkCall POST_note (calm t1) (with_body "not json")].

(** ** Facts about the storage engine *)

Lemma max_rowid_upper (l : list Note) (n : Note) :
  In n l -> exists m, max_rowid l = Some m /\ ID n <= m.
Proof.
  induction l as [|a l IH]; simpl; [tauto|].
  intros [->|Hin].
  - destruct (max_rowid l) as [m|]; eexists; split; eauto; lia.
  - destruct (IH Hin) as [m [-> Hle]]. eexists; split; eauto. lia.
Qed.

(** A rowid handed out lies above every rowid of the table and above the
    sequence entry. *)
Lemma new_rowid_above (t : Table) (id : Z) :
  new_rowid t = Some id ->
  (forall n, In n (rows t) -> ID n < id) /\ seq t < id.
Proof.
  unfold new_rowid. intros H.
  destruct (max_rowid (rows t)) as [m|] eqn:Hm.
  - destruct (MAX_ROWID <=? m) eqn:Hfull; [discriminate|].
    destruct (seq t =? MAX_ROWID) eqn:Hseq; [discriminate|].
    injection H as <-. split; [|lia].
    intros n Hin. destruct (max_rowid_upper _ _ Hin) as [m' [Hm' Hle]].
    rewrite Hm in Hm'. injection Hm' as <-. lia.
  - destruct (seq t =? MAX_ROWID) eqn:Hseq; [discriminate|].
    injection H as <-. split; [|lia].
    intros n Hin. destruct (max_rowid_upper _ _ Hin) as [m' [Hm' _]].
    congruence.
Qed.

Lemma find_fresh_key (l : list Note) (k : Z) (n : Note) :
  (forall m, In m l -> ID m < k) -> ID n = k ->
  find (matches (Some k)) (l ++ [n]) = Some n.
Proof.
  intros Hlt Hid. induction l as [|a l IH]; simpl.
  - rewrite Hid, Z.eqb_refl. reflexivity.
  - assert (ID a < k) as Ha by (apply Hlt; now left).
    destruct (ID a =? k) eqn:E; [apply Z.eqb_eq in E; lia|].
    apply IH. intros m Hm. apply Hlt. now right.
Qed.

(** The row an INSERT stores is the one a SELECT by its rowid returns. *)
Lemma select_after_insert (title content : string) (at_ : Time) (t t' : Table) (id : Z) :
  sql_insert title content at_ t = Some (id, t') ->
  sql_select (Some id) t' = Some (mkNote id title content at_) /\
  seq t' = id /\
  t' = mkTable (rows t ++ [mkNote id title content at_]) id.
Proof.
  unfold sql_insert. destruct (new_rowid t) as [k|] eqn:Hk; [|discriminate].
  intros H. injection H as <- <-.
  destruct (new_rowid_above _ Hk) as [Habove _].
  repeat split. unfold sql_select; simpl. now apply find_fresh_key.
Qed.

Lemma matches_after_update (title content : string) (key key' : option Z) (n : Note) :
  matches key' (if matches key n then mkNote (ID n) title content (CreatedAt n) else n)
  = matches key' n.
Proof. destruct (matches key n); reflexivity. Qed.

(** After an UPDATE, a SELECT by the same key returns the first matching row
    with the new title and content and its own id and created_at. *)
Lemma select_after_update (title content : string) (key : option Z) (t : Table) (n : Note) :
  sql_select key t = Some n ->
  sql_select key (sql_update title content key t)
  = Some (mkNote (ID n) title content (CreatedAt n)).
Proof.
  unfold sql_select, sql_update; simpl.
  induction (rows t) as [|a l IH]; simpl; [discriminate|].
  destruct (matches key a) eqn:Ha.
  - intros H. injection H as <-.
    destruct key as [k|]; simpl in *; [|discriminate]. now rewrite Ha.
  - rewrite Ha. exact IH.
Qed.

(** A SELECT by another key does not see the UPDATE. *)
Lemma select_other_after_update (title content : string) (key key' : option Z) (t : Table) :
  key' <> key ->
  sql_select key' (sql_update title content key t) = sql_select key' t.
Proof.
  intros Hne. unfold sql_select, sql_update; simpl.
  induction (rows t) as [|a l IH]; simpl; [reflexivity|].
  rewrite matches_after_update.
  destruct (matches key' a) eqn:Ha'; [|exact IH].
  destruct (matches key a) eqn:Ha; [|reflexivity].
  destruct key as [k|], key' as [k'|]; simpl in *; try discriminate.
  apply Z.eqb_eq in Ha, Ha'. congruence.
Qed.

Lemma no_match_filter (key : option Z) (l : list Note) :
  List.length (filter (matches key) l) = 0%nat ->
  forall n, In n l -> matches key n = false.
Proof.
  induction l as [|a l IH]; simpl; [tauto|].
  destruct (matches key a) eqn:Ha; [discriminate|].
  intros Hlen n [<-|Hin]; auto.
Qed.

(** An UPDATE or DELETE that matches no row leaves the table as it was. *)
Lemma update_no_match (title content : string) (key : option Z) (t : Table) :
  rows_matching key t = 0 -> sql_update title content key t = t.
Proof.
  unfold rows_matching, sql_update. intros H.
  assert (Hl : List.length (filter (matches key) (rows t)) = 0%nat) by lia.
  pose proof (no_match_filter _ _ Hl) as Hno. clear H Hl.
  destruct t as [l q]; simpl in *. f_equal.
  induction l as [|a l IH]; simpl; [reflexivity|].
  rewrite (Hno a (or_introl eq_refl)). f_equal.
  apply IH. intros n Hn. apply Hno. now right.
Qed.

Lemma delete_no_match (key : option Z) (t : Table) :
  rows_matching key t = 0 -> sql_delete key t = t.
Proof.
  unfold rows_matching, sql_delete. intros H.
  assert (Hl : List.length (filter (matches key) (rows t)) = 0%nat) by lia.
  pose proof (no_match_filter _ _ Hl) as Hno. clear H Hl.
  destruct t as [l q]; simpl in *. f_equal.
  induction l as [|a l IH]; simpl; [reflexivity|].
  rewrite (Hno a (or_introl eq_refl)). simpl. f_equal.
  apply IH. intros n Hn. apply Hno. now right.
Qed.

Lemma sql_update_twice (title content : string) (key : option Z) (t : Table) :
  sql_update title content key (sql_update title content key t)
  = sql_update title content key t.
Proof.
  unfold sql_update; simpl. f_equal. rewrite map_map.
  apply map_ext. intros n.
  destruct (matches key n) eqn:Hn.
  - destruct key as [k|]; simpl in *; [|discriminate]. now rewrite Hn.
  - now rewrite Hn.
Qed.

Lemma sql_delete_twice (key : option Z) (t : Table) :
  sql_delete key (sql_delete key t) = sql_delete key t.
Proof.
  unfold sql_delete; simpl. f_equal.
  induction (rows t) as [|a l IH]; simpl; [reflexivity|].
  destruct (matches key a) eqn:Ha; simpl; [exact IH|].
  rewrite Ha. simpl. now rewrite IH.
Qed.

Lemma time_MarshalJSON_in_range (t : Time) :
  time_in_range t -> time_MarshalJSON t = inl (JTime t).
Proof.
  unfold time_in_range, time_MarshalJSON. intros [Hlo Hhi].
  apply Z.leb_le in Hlo, Hhi. now rewrite Hlo, Hhi.
Qed.

Lemma json_Marshal_Note_in_range (n : Note) :
  time_in_range (CreatedAt n) -> json_Marshal_Note n = inl (note_json n).
Proof.
  intros H. unfold json_Marshal_Note. now rewrite (time_MarshalJSON_in_range H).
Qed.

Lemma json_Marshal_Note_ok (n : Note) (j : json) :
  json_Marshal_Note n = inl j -> j = note_json n /\ time_in_range (CreatedAt n).
Proof.
  unfold json_Marshal_Note, time_MarshalJSON, time_in_range.
  destruct (year_0000 <=? CreatedAt n) eqn:Hlo; simpl; [|discriminate].
  destruct (CreatedAt n <=? year_9999_end) eqn:Hhi; simpl; [|discriminate].
  intros H. injection H as <-. apply Z.leb_le in Hlo, Hhi. now split.
Qed.

(** ** Facts about the handlers *)

Section Handlers.

Variable json_decode : string -> Note + string.
Variable rowid_of_text : string -> option Z.

(** With an open handle, a table and no driver failure, the INSERT of
    [createNote] runs as [sql_insert]. *)
Lemma db_Exec_insert (e : Env) (s : World) (h : DB) (t : Table)
      (title content : string) (at_ : Time) (id : Z) :
  db s = Some h -> disk s = Some t -> stmt_err e = None ->
  new_rowid t = Some id ->
  db_Exec rowid_of_text e (db s) (INSERT_INTO_notes title content at_) s
  = ExecOk
      (mkResult (match lastid_err e with
                 | Some err => (0, Some err)
                 | None => (id, None)
                 end) (1, None))
      (mkWorld (Some h) (Some (mkTable (rows t ++ [mkNote id title content at_]) id))).
Proof.
  intros Hdb Hdisk Hstmt Hid.
  unfold db_Exec, run_stmt, sql_insert. now rewrite Hdb, Hstmt, Hdisk, Hid.
Qed.

Lemma db_Exec_update (e : Env) (s : World) (h : DB) (t : Table)
      (title content id : string) :
  db s = Some h -> disk s = Some t -> stmt_err e = None ->
  exists res,
    db_Exec rowid_of_text e (db s) (UPDATE_notes_SET title content id) s
    = ExecOk res
        (mkWorld (Some h) (Some (sql_update title content (rowid_of_text id) t))).
Proof.
  intros Hdb Hdisk Hstmt.
  unfold db_Exec, run_stmt. rewrite Hdb, Hstmt, Hdisk. eexists; reflexivity.
Qed.

Lemma db_Exec_delete (e : Env) (s : World) (h : DB) (t : Table) (id : string) :
  db s = Some h -> disk s = Some t -> stmt_err e = None ->
  exists res,
    db_Exec rowid_of_text e (db s) (DELETE_FROM_notes id) s
    = ExecOk res (mkWorld (Some h) (Some (sql_delete (rowid_of_text id) t))).
Proof.
  intros Hdb Hdisk Hstmt.
  unfold db_Exec, run_stmt. rewrite Hdb, Hstmt, Hdisk. eexists; reflexivity.
Qed.

Lemma world_eta (s : World) (h : DB) (t : Table) :
  db s = Some h -> disk s = Some t -> mkWorld (Some h) (Some t) = s.
Proof. destruct s; simpl; intros -> ->; reflexivity. Qed.

(** [getNote] once the SELECT has found a row that scans and marshals. *)
Lemma getNote_found (e : Env) (r : Request) (s : World) (h : DB) (t : Table) (n : Note) :
  db s = Some h -> disk s = Some t -> stmt_err e = None ->
  scan_err e n = None -> time_in_range (CreatedAt n) ->
  sql_select (rowid_of_text (chi_URLParam r "id")) t = Some n ->
  getNote rowid_of_text e NewRecorder r s = Done (json_reply StatusOK (note_json n)) s.
Proof.
  intros Hdb Hdisk Hstmt Hscan Htime Hsel.
  unfold getNote, db_QueryRow_Scan, rows_Scan.
  rewrite Hdb, Hstmt, Hdisk, Hsel, Hscan, (json_Marshal_Note_in_range _ Htime).
  reflexivity.
Qed.

(** C8: a body that fails JSON decoding makes [createNote] and [updateNote]
    answer 400 with the decode error text as the message, and the state of
    the store is what it was; this holds whatever the handle and the file
    are, since no statement is reached. *)
Theorem malformed_body_rejected (e : Env) (r : Request) (s : World) (err : string) :
  json_decode (Body r) = inr err ->
  createNote json_decode rowid_of_text e NewRecorder r s
    = Done (error_reply StatusBadRequest err) s /\
  updateNote json_decode rowid_of_text e NewRecorder r s
    = Done (error_reply StatusBadRequest err) s.
Proof.
  intros Hdec. unfold createNote, updateNote. rewrite Hdec. split; reflexivity.
Qed.

(** C7: with an open handle and no driver failure, an update or a delete
    whose id matches no row answers 200 with nothing written and leaves the
    store as it was, and that answer is the one every update and delete
    gives, whatever its id matches. *)
Theorem missing_id_not_distinguished (e : Env) (r r' : Request) (s : World)
        (h : DB) (t : Table) (p p' : Note) :
  db s = Some h -> disk s = Some t -> stmt_err e = None ->
  json_decode (Body r) = inl p -> json_decode (Body r') = inl p' ->
  rows_matching (rowid_of_text (chi_URLParam r "id")) t = 0 ->
  updateNote json_decode rowid_of_text e NewRecorder r s = Done (empty_reply StatusOK) s /\
  deleteNote rowid_of_text e NewRecorder r s = Done (empty_reply StatusOK) s /\
  response_of (updateNote json_decode rowid_of_text e NewRecorder r' s)
    = Some (empty_reply StatusOK) /\
  response_of (deleteNote rowid_of_text e NewRecorder r' s)
    = Some (empty_reply StatusOK).
Proof.
  intros Hdb Hdisk Hstmt Hp Hp' Hnone.
  unfold updateNote, deleteNote. rewrite Hp, Hp'.
  repeat split.
  - destruct (db_Exec_update e s (Title p) (Content p) (chi_URLParam r "id")
                Hdb Hdisk Hstmt) as [res ->].
    rewrite (update_no_match _ _ _ _ Hnone), (world_eta _ Hdb Hdisk). reflexivity.
  - destruct (db_Exec_delete e s (chi_URLParam r "id") Hdb Hdisk Hstmt) as [res ->].
    rewrite (delete_no_match _ _ Hnone), (world_eta _ Hdb Hdisk). reflexivity.
  - destruct (db_Exec_update e s (Title p') (Content p') (chi_URLParam r' "id")
                Hdb Hdisk Hstmt) as [res ->]. reflexivity.
  - destruct (db_Exec_delete e s (chi_URLParam r' "id") Hdb Hdisk Hstmt) as [res ->].
    reflexivity.
Qed.

(** C9: re-applying an UPDATE or a DELETE leaves the table as the first
    application left it, and so does serving the same update or delete
    request a second time under the same conditions. *)
Theorem update_delete_idempotent :
  (forall title content key t,
      sql_update title content key (sql_update title content key t)
      = sql_update title content key t) /\
  (forall key t, sql_delete key (sql_delete key t) = sql_delete key t) /\
  (forall e w w' r s,
      world_of (updateNote json_decode rowid_of_text e w' r
                  (world_of (updateNote json_decode rowid_of_text e w r s)))
      = world_of (updateNote json_decode rowid_of_text e w r s)) /\
  (forall e w w' r s,
      world_of (deleteNote rowid_of_text e w' r
                  (world_of (deleteNote rowid_of_text e w r s)))
      = world_of (deleteNote rowid_of_text e w r s)).
Proof.
  split; [exact sql_update_twice|]. split; [exact sql_delete_twice|].
  split; intros e w w' r [d k].
  - unfold updateNote. destruct (json_decode (Body r)) as [p|err]; [|reflexivity].
    unfold db_Exec, run_stmt; simpl.
    destruct d as [h|]; [|reflexivity].
    destruct (stmt_err e); simpl; [reflexivity|].
    destruct k as [t|]; simpl; [|reflexivity].
    now rewrite sql_update_twice.
  - unfold deleteNote, db_Exec, run_stmt; simpl.
    destruct d as [h|]; [|reflexivity].
    destruct (stmt_err e); simpl; [reflexivity|].
    destruct k as [t|]; simpl; [|reflexivity].
    now rewrite sql_delete_twice.
Qed.

(** C3, as the code has it: with an open handle and no driver failure, a
    get-one whose id matches no row answers 404 through [http.NotFound],
    which writes the plain-text line [404 page not found]; no note is
    written and the store is untouched. *)
Theorem getNote_missing_id (e : Env) (r : Request) (s : World) (h : DB) (t : Table) :
  db s = Some h -> disk s = Some t -> stmt_err e = None ->
  sql_select (rowid_of_text (chi_URLParam r "id")) t = None ->
  getNote rowid_of_text e NewRecorder r s
    = Done (error_reply StatusNotFound "404 page not found") s.
Proof.
  intros Hdb Hdisk Hstmt Hsel.
  unfold getNote, db_QueryRow_Scan. now rewrite Hdb, Hstmt, Hdisk, Hsel.
Qed.

(** C5: when the body decodes, the INSERT goes through (open handle, no
    driver failure, a rowid left to hand out), the driver reports the rowid
    and the clock reading marshals, [createNote] answers 201 with the JSON
    note made of the rowid the storage assigned, the title and content of
    the body, and the clock reading taken in the handler; that row is what
    the table gains. The id and created_at a body may carry are not used. *)
Theorem createNote_created (e : Env) (r : Request) (s : World) (h : DB) (t : Table)
        (p : Note) (id : Z) :
  json_decode (Body r) = inl p ->
  db s = Some h -> disk s = Some t ->
  stmt_err e = None -> lastid_err e = None ->
  new_rowid t = Some id ->
  time_in_range (now e) ->
  createNote json_decode rowid_of_text e NewRecorder r s
  = Done
      (json_reply StatusCreated
         (note_json (mkNote id (Title p) (Content p) (now e))))
      (mkWorld (Some h)
         (Some (mkTable (rows t ++ [mkNote id (Title p) (Content p) (now e)]) id))).
Proof.
  intros Hdec Hdb Hdisk Hstmt Hlast Hid Htime.
  unfold createNote. rewrite Hdec. simpl.
  rewrite (db_Exec_insert e s (Title p) (Content p) (now e) Hdb Hdisk Hstmt Hid).
  rewrite Hlast. simpl.
  unfold json_Marshal_Note; simpl. rewrite (time_MarshalJSON_in_range Htime).
  reflexivity.
Qed.

(** C10: the error of [LastInsertId] is dropped. When the INSERT goes through
    and the driver then fails to report the rowid, [createNote] still answers
    201, the note in the body carries id 0, and the row it stored has the
    rowid the storage assigned, which is not 0. *)
Theorem createNote_lost_insert_id (e : Env) (r : Request) (s : World) (h : DB)
        (t : Table) (p : Note) (id : Z) (err : string) :
  json_decode (Body r) = inl p ->
  db s = Some h -> disk s = Some t -> 0 <= seq t ->
  stmt_err e = None -> lastid_err e = Some err ->
  new_rowid t = Some id ->
  time_in_range (now e) ->
  createNote json_decode rowid_of_text e NewRecorder r s
  = Done
      (json_reply StatusCreated
         (note_json (mkNote 0 (Title p) (Content p) (now e))))
      (mkWorld (Some h)
         (Some (mkTable (rows t ++ [mkNote id (Title p) (Content p) (now e)]) id)))
  /\ 0 < id.
Proof.
  intros Hdec Hdb Hdisk Hseq Hstmt Hlast Hid Htime.
  split; [|destruct (new_rowid_above _ Hid); lia].
  unfold createNote. rewrite Hdec. simpl.
  rewrite (db_Exec_insert e s (Title p) (Content p) (now e) Hdb Hdisk Hstmt Hid).
  rewrite Hlast. simpl.
  unfold json_Marshal_Note; simpl. rewrite (time_MarshalJSON_in_range Htime).
  reflexivity.
Qed.

(** C4: for a row a get-one shows, an update with a decodable body leaves a
    store in which the get-one on the same id shows the new title and
    content with the id and created_at it showed before, and in which a
    SELECT by any other key returns what it returned before. *)
Theorem update_overwrites_title_and_content (e e' : Env) (r r' : Request)
        (s : World) (h : DB) (t : Table) (p n : Note) :
  db s = Some h -> disk s = Some t ->
  json_decode (Body r) = inl p ->
  stmt_err e = None ->
  stmt_err e' = None -> (forall m, scan_err e' m = None) ->
  chi_URLParam r' "id" = chi_URLParam r "id" ->
  sql_select (rowid_of_text (chi_URLParam r "id")) t = Some n ->
  time_in_range (CreatedAt n) ->
  exists t',
    getNote rowid_of_text e' NewRecorder r' s
      = Done (json_reply StatusOK (note_json n)) s /\
    updateNote json_decode rowid_of_text e NewRecorder r s
      = Done (empty_reply StatusOK) (mkWorld (Some h) (Some t')) /\
    getNote rowid_of_text e' NewRecorder r' (mkWorld (Some h) (Some t'))
      = Done (json_reply StatusOK
                (note_json (mkNote (ID n) (Title p) (Content p) (CreatedAt n))))
             (mkWorld (Some h) (Some t')) /\
    (forall key, key <> rowid_of_text (chi_URLParam r "id") ->
                 sql_select key t' = sql_select key t).
Proof.
  intros Hdb Hdisk Hdec Hstmt Hstmt' Hscan Hid Hsel Htime.
  exists (sql_update (Title p) (Content p) (rowid_of_text (chi_URLParam r "id")) t).
  split; [|split; [|split]].
  - apply (getNote_found e' r' s Hdb Hdisk Hstmt' (Hscan n) Htime).
    now rewrite Hid.
  - unfold updateNote. rewrite Hdec.
    destruct (db_Exec_update e s (Title p) (Content p) (chi_URLParam r "id")
                Hdb Hdisk Hstmt) as [res ->]. reflexivity.
  - apply getNote_found
      with (h := h)
           (t := sql_update (Title p) (Content p)
                   (rowid_of_text (chi_URLParam r "id")) t);
      simpl; auto.
    rewrite Hid. now apply select_after_update.
  - intros key Hkey. now apply select_other_after_update.
Qed.

(** C1, as the code has it: [initialization] assigns its handle to a local
    variable, so when it returns the package-level [db] is still nil (the
    table exists by then), and every handler that reaches its statement
    panics on the nil handle. *)
Theorem initialization_leaves_db_nil (e : Env) (d : option Table) (s' : World) :
  initialization rowid_of_text e (boot d) = Some s' ->
  db s' = None /\ disk s' <> None /\
  (forall e' w r,
      getNote rowid_of_text e' w r s' = Panic s' /\
      getNotes e' w r s' = Panic s' /\
      deleteNote rowid_of_text e' w r s' = Panic s') /\
  (forall e' w r p,
      json_decode (Body r) = inl p ->
      createNote json_decode rowid_of_text e' w r s' = Panic s' /\
      updateNote json_decode rowid_of_text e' w r s' = Panic s').
Proof.
  unfold initialization, db_Exec, run_stmt, boot; simpl.
  destruct (stmt_err e); [discriminate|].
  intros H.
  assert (Hs : db s' = None /\ disk s' <> None).
  { destruct d; injection H as <-; simpl; split; congruence. }
  destruct Hs as [Hdb Hdisk].
  split; [exact Hdb|]. split; [exact Hdisk|]. split.
  - intros e' w r. repeat split.
    + unfold getNote, db_QueryRow_Scan. now rewrite Hdb.
    + unfold getNotes, db_Query. now rewrite Hdb.
    + unfold deleteNote, db_Exec. now rewrite Hdb.
  - intros e' w r p Hdec. split.
    + unfold createNote, db_Exec. rewrite Hdec. simpl. now rewrite Hdb.
    + unfold updateNote, db_Exec. rewrite Hdec. now rewrite Hdb.
Qed.

(** C2, as the code has it: with an open handle and no driver failure, a
    get-all on a table without rows answers 200 and the document it writes
    is [null], the encoding of the nil slice the loop never appended to. *)
Theorem getNotes_empty_store_is_null (e : Env) (r : Request) (s : World)
        (h : DB) (q : Z) :
  db s = Some h -> disk s = Some (mkTable [] q) -> stmt_err e = None ->
  getNotes e NewRecorder r s = Done (json_reply StatusOK JNull) s /\
  json_reply StatusOK JNull <> json_reply StatusOK (JArray []).
Proof.
  intros Hdb Hdisk Hstmt. split; [|discriminate].
  unfold getNotes, db_Query. now rewrite Hdb, Hstmt, Hdisk.
Qed.

(** What serving one call does to the handle and to the sequence entry: the
    handle stays, and the entry moves only to a rowid just handed out. *)
Lemma serve_effect (c : Call) (s : World) :
  db (world_of (serve json_decode rowid_of_text c s)) = db s /\
  match assigned_id json_decode c s with
  | Some id =>
      world_seq s < id /\
      world_seq (world_of (serve json_decode rowid_of_text c s)) = id
  | None =>
      world_seq (world_of (serve json_decode rowid_of_text c s)) = world_seq s
  end.
Proof.
  destruct c as [rt e r], s as [d k].
  unfold serve, assigned_id, world_seq; simpl.
  destruct rt; simpl.
  - unfold createNote, db_Exec, run_stmt, sql_insert; simpl.
    destruct (json_decode (Body r)) as [p|err]; simpl; [|auto].
    destruct d as [h|]; simpl; [|auto].
    destruct (stmt_err e); simpl; [auto|].
    destruct k as [t|]; simpl; [|auto].
    destruct (new_rowid t) as [id|] eqn:Hid; simpl; [|auto].
    destruct (new_rowid_above _ Hid) as [_ Hseq].
    destruct (json_Marshal_Note _); simpl; auto.
  - unfold getNote, db_QueryRow_Scan; simpl.
    destruct d, (stmt_err e), k as [t|]; simpl; auto.
    destruct (sql_select _ t) as [n|]; simpl; auto.
    destruct (rows_Scan e n) as [m|]; simpl; auto.
    destruct (json_Marshal_Note m); simpl; auto.
  - unfold getNotes, db_Query; simpl.
    destruct d, (stmt_err e), k as [t|]; simpl; auto.
    destruct (scan_loop e (rows t) nil_slice) as [ns|]; simpl; auto.
    destruct (json_Marshal_Notes ns); simpl; auto.
  - unfold updateNote, db_Exec, run_stmt; simpl.
    destruct (json_decode (Body r)); simpl; auto.
    destruct d, (stmt_err e), k; simpl; auto.
  - unfold deleteNote, db_Exec, run_stmt; simpl.
    destruct d, (stmt_err e), k; simpl; auto.
Qed.

(** A rowid counted by [assigned_id] is the rowid of a row the call stored. *)
Lemma assigned_id_stored (c : Call) (s : World) (id : Z) :
  assigned_id json_decode c s = Some id ->
  exists t' n,
    disk (world_of (serve json_decode rowid_of_text c s)) = Some t' /\
    In n (rows t') /\ ID n = id.
Proof.
  destruct c as [rt e r], s as [d k].
  unfold serve, assigned_id; simpl.
  destruct rt; try discriminate.
  destruct (json_decode (Body r)) as [p|err] eqn:Hdec; try discriminate.
  destruct d as [h|]; try discriminate.
  destruct (stmt_err e) eqn:Hstmt; try discriminate.
  destruct k as [t|]; try discriminate.
  intros Hid. simpl.
  unfold createNote, db_Exec, run_stmt, sql_insert; simpl.
  rewrite Hdec, Hstmt, Hid; simpl.
  exists (mkTable (rows t ++ [mkNote id (Title p) (Content p) (now e)]) id),
         (mkNote id (Title p) (Content p) (now e)).
  split; [destruct (json_Marshal_Note _); reflexivity|].
  split; [apply in_or_app; right; now left | reflexivity].
Qed.

Lemma run_db (calls : list Call) (s : World) :
  db (run json_decode rowid_of_text calls s) = db s.
Proof.
  revert s. induction calls as [|c calls IH]; intros s; simpl; [reflexivity|].
  rewrite IH. apply serve_effect.
Qed.

(** The sequence entry never decreases, and every rowid handed out during a
    run is at most the entry the run ends with. *)
Lemma run_seq (calls : list Call) (s : World) :
  world_seq s <= world_seq (run json_decode rowid_of_text calls s) /\
  forall id, In id (assigned_ids json_decode rowid_of_text calls s) ->
             id <= world_seq (run json_decode rowid_of_text calls s).
Proof.
  revert s. induction calls as [|c calls IH]; intros s; simpl.
  - split; [lia|tauto].
  - destruct (serve_effect c s) as [_ Hstep].
    destruct (IH (world_of (serve json_decode rowid_of_text c s))) as [Hmono Hids].
    destruct (assigned_id json_decode c s) as [k|].
    + destruct Hstep as [Hlt Heq]. split; [lia|].
      intros id [<-|Hin]; [lia|auto].
    + split; [lia|auto].
Qed.

(** C6: after any run of requests from a store whose sequence entry is not
    negative, a create that answers 201 (the driver reporting the rowid)
    returns a positive id that no create of the run was given and that no row
    of the table holds, and a get-one on that id then answers 200 with that
    id and the title and content of the created note (and the created_at the
    create returned). *)
Theorem create_then_get_round_trip (s0 : World) (history : list Call) (h : DB)
        (e e' : Env) (r r' : Request) (p : Note) (w : ResponseWriter) (s' : World) :
  db s0 = Some h -> 0 <= world_seq s0 ->
  json_decode (Body r) = inl p ->
  lastid_err e = None ->
  createNote json_decode rowid_of_text e NewRecorder r
    (run json_decode rowid_of_text history s0) = Done w s' ->
  status w = Some StatusCreated ->
  stmt_err e' = None -> (forall m, scan_err e' m = None) ->
  exists id,
    w = json_reply StatusCreated
          (note_json (mkNote id (Title p) (Content p) (now e))) /\
    (rowid_of_text (chi_URLParam r' "id") = Some id ->
     getNote rowid_of_text e' NewRecorder r' s'
     = Done (json_reply StatusOK
               (note_json (mkNote id (Title p) (Content p) (now e)))) s') /\
    0 < id /\
    ~ In id (assigned_ids json_decode rowid_of_text history s0) /\
    (forall t, disk (run json_decode rowid_of_text history s0) = Some t ->
               ~ In id (map ID (rows t))).
Proof.
  intros Hdb0 Hseq0 Hdec Hlast Hcreate Hstatus Hstmt' Hscan'.
  pose proof (run_db history s0) as Hdb. rewrite Hdb0 in Hdb.
  destruct (run_seq history s0) as [Hmono Hids].
  set (s := run json_decode rowid_of_text history s0) in *.
  unfold createNote, db_Exec, run_stmt in Hcreate.
  rewrite Hdec, Hdb in Hcreate. simpl in Hcreate.
  destruct (stmt_err e) as [err|].
  { injection Hcreate as <- _. discriminate Hstatus. }
  destruct (disk s) as [t|] eqn:Hdisk.
  2:{ injection Hcreate as <- _. discriminate Hstatus. }
  destruct (sql_insert (Title p) (Content p) (now e) t) as [[id t']|] eqn:Hins.
  2:{ injection Hcreate as <- _. discriminate Hstatus. }
  rewrite Hlast in Hcreate. simpl in Hcreate.
  destruct (json_Marshal_Note (set_ID (set_CreatedAt p (now e)) id)) as [j|err] eqn:Hj.
  2:{ injection Hcreate as <- _. discriminate Hstatus. }
  injection Hcreate as <- <-.
  destruct (json_Marshal_Note_ok _ Hj) as [-> Htime]. simpl in Htime.
  destruct (select_after_insert _ _ _ _ Hins) as [Hsel [Hseq' Ht']].
  assert (Hnew : new_rowid t = Some id).
  { unfold sql_insert in Hins. destruct (new_rowid t); [|discriminate].
    now injection Hins as -> _. }
  destruct (new_rowid_above _ Hnew) as [Habove Hseq].
  assert (Hws : world_seq s = seq t) by (unfold world_seq; now rewrite Hdisk).
  exists id. split; [reflexivity|]. split; [|split; [|split]].
  - intros Hkey.
    apply getNote_found with (h := h) (t := t'); simpl; auto.
    now rewrite Hkey.
  - lia.
  - intros Hin. apply Hids in Hin. lia.
  - intros t1 Ht1 Hin. injection Ht1 as <-.
    apply in_map_iff in Hin. destruct Hin as [n [Hn Hin]].
    apply Habove in Hin. lia.
Qed.

End Handlers.

(** ** The theorems at sample inputs *)

Lemma malformed_body_rejected_witness :
  sample_decode (Body (with_body "not json")) = inr not_json_error /\
  (createNote sample_decode decimal_rowid (calm t0) NewRecorder
     (with_body "not json") (open_world one_note)
   = Done (error_reply StatusBadRequest not_json_error) (open_world one_note) /\
   updateNote sample_decode decimal_rowid (calm t0) NewRecorder
     (with_body "not json") (open_world one_note)
   = Done (error_reply StatusBadRequest not_json_error) (open_world one_note)).
Proof.
  split; [reflexivity|].
  apply (@malformed_body_rejected sample_decode decimal_rowid (calm t0)
           (with_body "not json") (open_world one_note) not_json_error).
  reflexivity.
Defined.

Lemma missing_id_not_distinguished_witness :
  rows_matching (decimal_rowid "7") one_note = 0 /\
  0 < rows_matching (decimal_rowid "1") one_note /\
  (updateNote sample_decode decimal_rowid (calm t1) NewRecorder
     (with_id "7" new_body) (open_world one_note)
   = Done (empty_reply StatusOK) (open_world one_note) /\
   deleteNote decimal_rowid (calm t1) NewRecorder
     (with_id "7" new_body) (open_world one_note)
   = Done (empty_reply StatusOK) (open_world one_note) /\
   response_of (updateNote sample_decode decimal_rowid (calm t1) NewRecorder
                  (with_id "1" new_body) (open_world one_note))
   = Some (empty_reply StatusOK) /\
   response_of (deleteNote decimal_rowid (calm t1) NewRecorder
                  (with_id "1" new_body) (open_world one_note))
   = Some (empty_reply StatusOK)).
Proof.
  split; [reflexivity|]. split; [reflexivity|].
  apply (@missing_id_not_distinguished sample_decode decimal_rowid (calm t1)
           (with_id "7" new_body) (with_id "1" new_body)
           (open_world one_note) notes_db one_note new_payload new_payload);
    reflexivity.
Defined.

(** C3, as stated, fails: on a table holding note 1 only, the get-one of id 7
    matches no row, answers 404, and the answer has a body. *)
Lemma getNote_missing_id_has_body :
  sql_select (decimal_rowid "7") one_note = None /\
  exists w,
    getNote decimal_rowid (calm t1) NewRecorder (with_id "7" "") (open_world one_note)
    = Done w (open_world one_note) /\
    status w = Some StatusNotFound /\
    body w <> [].
Proof.
  split; [reflexivity|].
  exists (error_reply StatusNotFound "404 page not found").
  split; [reflexivity|]. split; [reflexivity|]. discriminate.
Qed.

Lemma getNote_missing_id_witness :
  sql_select (decimal_rowid (chi_URLParam (with_id "7" "") "id")) one_note = None /\
  getNote decimal_rowid (calm t1) NewRecorder (with_id "7" "") (open_world one_note)
  = Done (error_reply StatusNotFound "404 page not found") (open_world one_note).
Proof.
  split; [reflexivity|].
  apply (@getNote_missing_id decimal_rowid (calm t1) (with_id "7" "")
           (open_world one_note) notes_db one_note);
    reflexivity.
Defined.

Lemma createNote_created_witness :
  new_rowid empty_table = Some 1 /\
  time_in_range (now (calm t0)) /\
  createNote sample_decode decimal_rowid (calm t0) NewRecorder
    (with_body test_body) (open_world empty_table)
  = Done (json_reply StatusCreated (note_json (mkNote 1 "Test" "Body" t0)))
         (open_world (mkTable [mkNote 1 "Test" "Body" t0] 1)).
Proof.
  assert (Ht : time_in_range (now (calm t0))) by (vm_compute; split; discriminate).
  split; [reflexivity|]. split; [exact Ht|].
  apply (@createNote_created sample_decode decimal_rowid (calm t0)
           (with_body test_body) (open_world empty_table) notes_db empty_table
           test_payload 1);
    try reflexivity.
  exact Ht.
Defined.

Lemma createNote_lost_insert_id_witness :
  lastid_err (lost_id t0) = Some "sqlite3: last insert id unavailable" /\
  new_rowid one_note = Some 2 /\
  (createNote sample_decode decimal_rowid (lost_id t0) NewRecorder
     (with_body new_body) (open_world one_note)
   = Done (json_reply StatusCreated (note_json (mkNote 0 "New" "Updated" t0)))
          (open_world (mkTable [mkNote 1 "Test" "Body" t0;
                                mkNote 2 "New" "Updated" t0] 2))
   /\ 0 < 2).
Proof.
  assert (Ht : time_in_range (now (lost_id t0))) by (vm_compute; split; discriminate).
  split; [reflexivity|]. split; [reflexivity|].
  apply (@createNote_lost_insert_id sample_decode decimal_rowid (lost_id t0)
           (with_body new_body) (open_world one_note) notes_db one_note
           new_payload 2 "sqlite3: last insert id unavailable");
    try reflexivity.
  - simpl. lia.
  - exact Ht.
Defined.

Lemma update_overwrites_title_and_content_witness :
  sql_select (decimal_rowid (chi_URLParam (with_id "1" new_body) "id")) one_note
  = Some (mkNote 1 "Test" "Body" t0) /\
  exists t',
    getNote decimal_rowid (calm t1) NewRecorder (with_id "1" "") (open_world one_note)
    = Done (json_reply StatusOK (note_json (mkNote 1 "Test" "Body" t0)))
           (open_world one_note) /\
    updateNote sample_decode decimal_rowid (calm t1) NewRecorder
      (with_id "1" new_body) (open_world one_note)
    = Done (empty_reply StatusOK) (mkWorld (Some notes_db) (Some t')) /\
    getNote decimal_rowid (calm t1) NewRecorder (with_id "1" "")
      (mkWorld (Some notes_db) (Some t'))
    = Done (json_reply StatusOK
              (note_json (mkNote (ID (mkNote 1 "Test" "Body" t0))
                            (Title new_payload) (Content new_payload)
                            (CreatedAt (mkNote 1 "Test" "Body" t0)))))
           (mkWorld (Some notes_db) (Some t')) /\
    (forall key,
        key <> decimal_rowid (chi_URLParam (with_id "1" new_body) "id") ->
        sql_select key t' = sql_select key one_note).
Proof.
  split; [reflexivity|].
  apply (@update_overwrites_title_and_content sample_decode decimal_rowid
           (calm t1) (calm t1) (with_id "1" new_body) (with_id "1" "")
           (open_world one_note) notes_db one_note new_payload
           (mkNote 1 "Test" "Body" t0));
    try reflexivity.
  vm_compute. split; discriminate.
Defined.

Lemma initialization_leaves_db_nil_witness :
  initialization decimal_rowid (calm t0) (boot None)
  = Some (mkWorld None (Some empty_table)) /\
  db (mkWorld None (Some empty_table)) = None /\
  getNotes (calm t1) NewRecorder (with_body "") (mkWorld None (Some empty_table))
  = Panic (mkWorld None (Some empty_table)) /\
  createNote sample_decode decimal_rowid (calm t1) NewRecorder
    (with_body test_body) (mkWorld None (Some empty_table))
  = Panic (mkWorld None (Some empty_table)).
Proof.
  split; [reflexivity|].
  destruct (@initialization_leaves_db_nil sample_decode decimal_rowid (calm t0)
              None (mkWorld None (Some empty_table)) eq_refl)
    as [Hdb [_ [Hread Hwrite]]].
  split; [exact Hdb|]. split.
  - apply (Hread (calm t1) NewRecorder (with_body "")).
  - apply (Hwrite (calm t1) NewRecorder (with_body test_body) test_payload).
    reflexivity.
Defined.

Lemma getNotes_empty_store_is_null_witness :
  getNotes (calm t1) NewRecorder (with_body "") (open_world empty_table)
  = Done (json_reply StatusOK JNull) (open_world empty_table) /\
  json_reply StatusOK JNull <> json_reply StatusOK (JArray []).
Proof.
  apply (@getNotes_empty_store_is_null (calm t1) (with_body "")
           (open_world empty_table) notes_db 0);
    reflexivity.
Defined.

Lemma create_then_get_round_trip_witness :
  run sample_decode decimal_rowid create_then_delete (open_world empty_table)
  = open_world (mkTable [] 1) /\
  assigned_ids sample_decode decimal_rowid create_then_delete (open_world empty_table)
  = [1] /\
  exists id,
    json_reply StatusCreated (note_json (mkNote 2 "New" "Updated" t1))
    = json_reply StatusCreated
        (note_json (mkNote id (Title new_payload) (Content new_payload)
                      (now (calm t1)))) /\
    (decimal_rowid (chi_URLParam (with_id "2" "") "id") = Some id ->
     getNote decimal_rowid (calm t1) NewRecorder (with_id "2" "")
       (open_world (mkTable [mkNote 2 "New" "Updated" t1] 2))
     = Done (json_reply StatusOK
               (note_json (mkNote id (Title new_payload) (Content new_payload)
                             (now (calm t1)))))
            (open_world (mkTable [mkNote 2 "New" "Updated" t1] 2))) /\
    0 < id /\
    ~ In id (assigned_ids sample_decode decimal_rowid create_then_delete
               (open_world empty_table)) /\
    (forall t,
        disk (run sample_decode decimal_rowid create_then_delete
                (open_world empty_table)) = Some t ->
        ~ In id (map ID (rows t))).
Proof.
  split; [reflexivity|]. split; [reflexivity|].
  apply (@create_then_get_round_trip sample_decode decimal_rowid
           (open_world empty_table) create_then_delete notes_db
           (calm t1) (calm t1) (with_body new_body) (with_id "2" "")
           new_payload
           (json_reply StatusCreated (note_json (mkNote 2 "New" "Updated" t1)))
           (open_world (mkTable [mkNote 2 "New" "Updated" t1] 2)));
    reflexivity.
Defined.

(** ** More about the storage engine: keys, order, listing *)

Lemma map_ID_update (title content : string) (key : option Z) (l : list Note) :
  map ID (map (fun n => if matches key n
                        then mkNote (ID n) title content (CreatedAt n)
                        else n) l)
  = map ID l.
Proof.
  rewrite map_map. apply map_ext. intros n. now destruct (matches key n).
Qed.

Lemma sorted_filter (f : Note -> bool) (l : list Note) :
  StronglySorted Z.lt (map ID l) -> StronglySorted Z.lt (map ID (filter f l)).
Proof.
  induction l as [|a l IH]; simpl; intros H; [constructor|].
  inversion H as [|x xs Hs Hall]; subst.
  destruct (f a); simpl; [|auto].
  constructor; [auto|].
  rewrite Forall_forall in *. intros z Hz.
  apply Hall. apply in_map_iff in Hz. destruct Hz as [n [<- Hn]].
  apply in_map. apply filter_In in Hn. tauto.
Qed.

Lemma sorted_snoc (l : list Z) (x : Z) :
  StronglySorted Z.lt l -> (forall y, In y l -> y < x) ->
  StronglySorted Z.lt (l ++ [x]).
Proof.
  induction l as [|a l IH]; simpl; intros Hs Hlt.
  - constructor; constructor.
  - inversion Hs as [|y ys Hs' Hall]; subst.
    constructor.
    + apply IH; auto.
    + apply Forall_app. split; [exact Hall|].
      constructor; [|constructor]. apply Hlt. now left.
Qed.

Lemma keyed_insert (title content : string) (at_ : Time) (t t' : Table) (id : Z) :
  keyed t -> sql_insert title content at_ t = Some (id, t') -> keyed t'.
Proof.
  intros [Hs Hb] Hins.
  destruct (select_after_insert _ _ _ _ Hins) as [_ [_ ->]].
  assert (Hnew : new_rowid t = Some id).
  { unfold sql_insert in Hins. destruct (new_rowid t); [|discriminate].
    now injection Hins as -> _. }
  destruct (new_rowid_above _ Hnew) as [Habove _].
  split; simpl.
  - rewrite map_app. simpl. apply sorted_snoc; [exact Hs|].
    intros y Hy. apply in_map_iff in Hy. destruct Hy as [n [<- Hn]]. auto.
  - apply Forall_app. split.
    + rewrite Forall_forall. intros n Hn. apply Habove in Hn. lia.
    + constructor; [simpl; lia|constructor].
Qed.

Lemma keyed_update (title content : string) (key : option Z) (t : Table) :
  keyed t -> keyed (sql_update title content key t).
Proof.
  intros [Hs Hb]. split; simpl.
  - now rewrite map_ID_update.
  - rewrite Forall_forall in *. intros n Hn.
    apply in_map_iff in Hn. destruct Hn as [m [<- Hm]].
    specialize (Hb m Hm). now destruct (matches key m).
Qed.

Lemma keyed_delete (key : option Z) (t : Table) :
  keyed t -> keyed (sql_delete key t).
Proof.
  intros [Hs Hb]. split; simpl.
  - now apply sorted_filter.
  - rewrite Forall_forall in *. intros n Hn. apply filter_In in Hn.
    apply Hb. tauto.
Qed.

(** In increasing rowid order a key matches at most one row. *)
Lemma keyed_one_match (key : option Z) (l : list Note) :
  StronglySorted Z.lt (map ID l) ->
  (List.length (filter (matches key) l) <= 1)%nat.
Proof.
  induction l as [|a l IH]; simpl; intros H; [lia|].
  inversion H as [|x xs Hs Hall]; subst.
  destruct (matches key a) eqn:Ha; [|auto].
  simpl. destruct key as [k|]; simpl in Ha; [|discriminate].
  apply Z.eqb_eq in Ha.
  assert (Hnone : filter (matches (Some k)) l = []).
  { clear IH H Hs. induction l as [|b l IHl]; simpl; [reflexivity|].
    inversion Hall as [|y ys Hy Hall']; subst.
    simpl. destruct (ID b =? ID a) eqn:Hb; [apply Z.eqb_eq in Hb; lia|].
    now apply IHl. }
  rewrite Hnone. simpl. lia.
Qed.

Lemma select_after_delete (key : option Z) (t : Table) :
  sql_select key (sql_delete key t) = None.
Proof.
  unfold sql_select, sql_delete; simpl.
  induction (rows t) as [|a l IH]; simpl; [reflexivity|].
  destruct (matches key a) eqn:Ha; simpl; [exact IH|].
  now rewrite Ha.
Qed.

Lemma select_other_after_delete (key key' : option Z) (t : Table) :
  key' <> key -> sql_select key' (sql_delete key t) = sql_select key' t.
Proof.
  intros Hne. unfold sql_select, sql_delete; simpl.
  induction (rows t) as [|a l IH]; simpl; [reflexivity|].
  destruct (matches key a) eqn:Ha; simpl.
  - destruct (matches key' a) eqn:Ha'; [|exact IH].
    destruct key as [k|], key' as [k'|]; simpl in *; try discriminate.
    apply Z.eqb_eq in Ha, Ha'. congruence.
  - destruct (matches key' a); [reflexivity|exact IH].
Qed.

Lemma select_none_key (t : Table) : sql_select None t = None.
Proof.
  unfold sql_select. induction (rows t) as [|a l IH]; simpl; auto.
Qed.

Lemma rows_matching_none_key (t : Table) : rows_matching None t = 0.
Proof.
  unfold rows_matching. induction (rows t) as [|a l IH]; simpl; auto.
Qed.

(** The loop of [getNotes] when every row converts: the rows, appended in
    scan order. *)
Lemma scan_loop_all (e : Env) (found acc : list Note) :
  (forall n, In n found -> scan_err e n = None) ->
  scan_loop e found (mk_slice acc) = inl (mk_slice (acc ++ found)).
Proof.
  revert acc. induction found as [|a l IH]; intros acc Hok; simpl.
  - now rewrite app_nil_r.
  - unfold rows_Scan. rewrite (Hok a (or_introl eq_refl)). simpl.
    rewrite IH by (intros n Hn; apply Hok; now right).
    now rewrite <- app_assoc.
Qed.

Lemma scan_loop_nonempty (e : Env) (a : Note) (l : list Note) :
  (forall n, In n (a :: l) -> scan_err e n = None) ->
  scan_loop e (a :: l) nil_slice = inl (mk_slice (a :: l)).
Proof.
  intros Hok. simpl. unfold rows_Scan. rewrite (Hok a (or_introl eq_refl)). simpl.
  apply scan_loop_all. intros n Hn. apply Hok. now right.
Qed.


Lemma marshal_elems_in_range (l : list Note) :
  Forall (fun n => time_in_range (CreatedAt n)) l ->
  marshal_elems l = inl (map note_json l).
Proof.
  induction 1 as [|a l Ha _ IH]; simpl; [reflexivity|].
  now rewrite (json_Marshal_Note_in_range _ Ha), IH.
Qed.

Lemma json_Marshal_Note_out_of_range (n : Note) :
  ~ time_in_range (CreatedAt n) -> json_Marshal_Note n = inr marshal_time_error.
Proof.
  unfold time_in_range, json_Marshal_Note, time_MarshalJSON. intros H.
  destruct (year_0000 <=? CreatedAt n) eqn:Hlo; simpl.
  - destruct (CreatedAt n <=? year_9999_end) eqn:Hhi; simpl; [|reflexivity].
    apply Z.leb_le in Hlo, Hhi. lia.
  - reflexivity.
Qed.

(** ** More about the handlers and [initialization] *)

Section Coverage.

Variable json_decode : string -> Note + string.
Variable rowid_of_text : string -> option Z.

(** What [getNotes] writes for a table whose rows all convert and marshal. *)
Lemma getNotes_reply (e : Env) (r : Request) (s : World) (h : DB) (t : Table) :
  db s = Some h -> disk s = Some t -> stmt_err e = None ->
  (forall n, In n (rows t) -> scan_err e n = None) ->
  rows_in_range t ->
  getNotes e NewRecorder r s
  = Done (json_reply StatusOK
            (match rows t with
             | [] => JNull
             | _ => JArray (map note_json (rows t))
             end)) s.
Proof.
  intros Hdb Hdisk Hstmt Hscan Hrange.
  unfold getNotes, db_Query. rewrite Hdb, Hstmt, Hdisk.
  destruct (rows t) as [|a l] eqn:Hrows; [reflexivity|].
  rewrite (scan_loop_nonempty e Hscan).
  unfold json_Marshal_Notes. unfold rows_in_range in Hrange. rewrite Hrows in Hrange.
  now rewrite (marshal_elems_in_range Hrange).
Qed.

(** X1: [getNotes] lists every row of the table, in scan order, as one JSON
    array under status 200 (for a table without rows the document is
    [null]), and leaves the store as it was. *)
Theorem getNotes_lists_rows (e : Env) (r : Request) (s : World) (h : DB) (t : Table) :
  db s = Some h -> disk s = Some t -> stmt_err e = None ->
  (forall n, In n (rows t) -> scan_err e n = None) ->
  rows_in_range t ->
  (rows t <> [] ->
   getNotes e NewRecorder r s
   = Done (json_reply StatusOK (JArray (map note_json (rows t)))) s) /\
  (rows t = [] ->
   getNotes e NewRecorder r s = Done (json_reply StatusOK JNull) s).
Proof.
  intros Hdb Hdisk Hstmt Hscan Hrange.
  rewrite (getNotes_reply e r s Hdb Hdisk Hstmt Hscan Hrange).
  split; intros Hrows.
  - destruct (rows t); [congruence|reflexivity].
  - now rewrite Hrows.
Qed.

(** X2: A note that [createNote] has stored is the last element of what a
    following [getNotes] lists, with the rowid the storage assigned, whether
    or not the driver reported that rowid to [createNote]. *)
Theorem created_note_is_listed (e e' : Env) (r r' : Request) (s : World) (h : DB)
        (t : Table) (p : Note) (id : Z) :
  json_decode (Body r) = inl p ->
  db s = Some h -> disk s = Some t ->
  stmt_err e = None -> new_rowid t = Some id -> time_in_range (now e) ->
  stmt_err e' = None -> (forall n, scan_err e' n = None) ->
  rows_in_range t ->
  getNotes e' NewRecorder r'
    (world_of (createNote json_decode rowid_of_text e NewRecorder r s))
  = Done (json_reply StatusOK
            (JArray (map note_json (rows t)
                     ++ [note_json (mkNote id (Title p) (Content p) (now e))])))
         (world_of (createNote json_decode rowid_of_text e NewRecorder r s)).
Proof.
  intros Hdec Hdb Hdisk Hstmt Hid Htime Hstmt' Hscan Hrange.
  assert (Hw : world_of (createNote json_decode rowid_of_text e NewRecorder r s)
               = mkWorld (Some h)
                   (Some (mkTable (rows t ++ [mkNote id (Title p) (Content p) (now e)]) id))).
  { unfold createNote. rewrite Hdec. simpl.
    rewrite (db_Exec_insert rowid_of_text e s (Title p) (Content p) (now e)
               Hdb Hdisk Hstmt Hid).
    destruct (json_Marshal_Note _); reflexivity. }
  rewrite Hw.
  rewrite (@getNotes_reply e' r' _ h
             (mkTable (rows t ++ [mkNote id (Title p) (Content p) (now e)]) id));
    simpl; auto.
  - destruct (rows t); simpl; [reflexivity|].
    now rewrite map_app.
  - unfold rows_in_range; simpl. apply Forall_app. split; [exact Hrange|].
    constructor; [exact Htime|constructor].
Qed.

(** X3: After a delete that went through, the get-one on the same id answers
    404; the sequence entry is as before (so the rowid is not handed out
    again) and a SELECT by any other key returns what it returned before. *)
Theorem delete_then_get_not_found (e e' : Env) (r r' : Request) (s : World)
        (h : DB) (t : Table) :
  db s = Some h -> disk s = Some t ->
  stmt_err e = None -> stmt_err e' = None ->
  chi_URLParam r' "id" = chi_URLParam r "id" ->
  exists t',
    deleteNote rowid_of_text e NewRecorder r s
    = Done (empty_reply StatusOK) (mkWorld (Some h) (Some t')) /\
    getNote rowid_of_text e' NewRecorder r' (mkWorld (Some h) (Some t'))
    = Done (error_reply StatusNotFound "404 page not found")
           (mkWorld (Some h) (Some t')) /\
    seq t' = seq t /\
    (forall key, key <> rowid_of_text (chi_URLParam r "id") ->
                 sql_select key t' = sql_select key t).
Proof.
  intros Hdb Hdisk Hstmt Hstmt' Hid.
  exists (sql_delete (rowid_of_text (chi_URLParam r "id")) t).
  split; [|split; [|split]].
  - unfold deleteNote.
    destruct (db_Exec_delete rowid_of_text e s (chi_URLParam r "id")
                Hdb Hdisk Hstmt) as [res ->]. reflexivity.
  - unfold getNote, db_QueryRow_Scan; simpl.
    now rewrite Hstmt', Hid, select_after_delete.
  - reflexivity.
  - intros key Hkey. now apply select_other_after_delete.
Qed.

(** X4: On a table in increasing rowid order, a delete of an id that a row holds
    removes that one row: the table has one row less, and holds exactly the
    rows with another rowid. *)
Theorem delete_removes_one_row (e : Env) (r : Request) (s : World) (h : DB)
        (t : Table) (n : Note) :
  db s = Some h -> disk s = Some t -> stmt_err e = None ->
  keyed t ->
  sql_select (rowid_of_text (chi_URLParam r "id")) t = Some n ->
  exists t',
    world_of (deleteNote rowid_of_text e NewRecorder r s)
    = mkWorld (Some h) (Some t') /\
    S (List.length (rows t')) = List.length (rows t) /\
    (forall m, In m (rows t') <-> In m (rows t) /\ ID m <> ID n).
Proof.
  intros Hdb Hdisk Hstmt [Hsorted _] Hsel.
  set (key := rowid_of_text (chi_URLParam r "id")) in *.
  exists (sql_delete key t).
  assert (Hkey : key = Some (ID n) /\ In n (rows t)).
  { unfold sql_select in Hsel. apply find_some in Hsel. destruct Hsel as [Hin Hm].
    destruct key as [k|]; simpl in Hm; [|discriminate].
    apply Z.eqb_eq in Hm. now subst k. }
  destruct Hkey as [Hkey Hin].
  split; [|split].
  - unfold deleteNote.
    destruct (db_Exec_delete rowid_of_text e s (chi_URLParam r "id")
                Hdb Hdisk Hstmt) as [res ->]. reflexivity.
  - pose proof (keyed_one_match key (rows t) Hsorted) as Hle.
    assert (Hge : (1 <= List.length (filter (matches key) (rows t)))%nat).
    { assert (Hf : In n (filter (matches key) (rows t))).
      { apply filter_In. split; [exact Hin|].
        rewrite Hkey. simpl. apply Z.eqb_refl. }
      destruct (filter (matches key) (rows t)); [destruct Hf|simpl; lia]. }
    assert (Hsum : (List.length (filter (matches key) (rows t))
                    + List.length (filter (fun m => negb (matches key m)) (rows t))
                    = List.length (rows t))%nat).
    { clear. induction (rows t) as [|a l IH]; simpl; [reflexivity|].
      destruct (matches key a); simpl; lia. }
    simpl. lia.
  - intros m. simpl. rewrite filter_In, Hkey. simpl.
    split; intros [Hm Hne]; split; auto.
    + intros Heq. rewrite Heq, Z.eqb_refl in Hne. discriminate.
    + destruct (ID m =? ID n) eqn:E; [apply Z.eqb_eq in E; contradiction|reflexivity].
Qed.



(** X7: The handlers do not create the table: on a file without it each one
    answers 500 with SQLite's [no such table: notes] and the file still has
    no table. *)
Theorem missing_table_is_500 (e : Env) (r : Request) (s : World) (h : DB) (p : Note) :
  db s = Some h -> disk s = None -> stmt_err e = None ->
  json_decode (Body r) = inl p ->
  createNote json_decode rowid_of_text e NewRecorder r s
    = Done (error_reply StatusInternalServerError no_such_table) s /\
  getNote rowid_of_text e NewRecorder r s
    = Done (error_reply StatusInternalServerError no_such_table) s /\
  getNotes e NewRecorder r s
    = Done (error_reply StatusInternalServerError no_such_table) s /\
  updateNote json_decode rowid_of_text e NewRecorder r s
    = Done (error_reply StatusInternalServerError no_such_table) s /\
  deleteNote rowid_of_text e NewRecorder r s
    = Done (error_reply StatusInternalServerError no_such_table) s.
Proof.
  intros Hdb Hdisk Hstmt Hdec.
  unfold createNote, getNote, getNotes, updateNote, deleteNote,
    db_Exec, db_QueryRow_Scan, db_Query, run_stmt.
  rewrite Hdec, Hdb, Hstmt, Hdisk. simpl. repeat split; reflexivity.
Qed.

(** X8: When the driver accepts the CREATE TABLE, [initialization] returns; it
    leaves the package-level handle as it was, keeps a table that exists
    with all its rows, creates an empty one otherwise, and running it again
    changes nothing. *)
Theorem initialization_ensures_table (e e' : Env) (s : World) :
  stmt_err e = None -> stmt_err e' = None ->
  exists s',
    initialization rowid_of_text e s = Some s' /\
    db s' = db s /\
    (forall t, disk s = Some t -> disk s' = Some t) /\
    (disk s = None -> disk s' = Some (mkTable [] 0)) /\
    initialization rowid_of_text e' s' = Some s'.
Proof.
  intros He He'. unfold initialization, db_Exec, run_stmt; simpl.
  rewrite He, He'. destruct s as [d [t|]]; simpl.
  - eexists. split; [reflexivity|]. simpl. repeat split; auto. discriminate.
  - eexists. split; [reflexivity|]. simpl. repeat split; auto. discriminate.
Qed.

(** When the driver refuses the CREATE TABLE, [initialization] does not
    return: the process ends in [log.Fatal]. *)
Theorem initialization_fatal (e : Env) (s : World) (err : string) :
  stmt_err e = Some err -> initialization rowid_of_text e s = None.
Proof.
  intros He. unfold initialization, db_Exec; simpl. now rewrite He.
Qed.

(** The table a call leaves is the table it found, or that table after one
    INSERT, one UPDATE or one DELETE. *)
Lemma serve_disk (c : Call) (s : World) (t : Table) :
  disk s = Some t ->
  exists t',
    disk (world_of (serve json_decode rowid_of_text c s)) = Some t' /\
    (t' = t \/
     (exists title content at_ id, sql_insert title content at_ t = Some (id, t')) \/
     (exists title content key, t' = sql_update title content key t) \/
     (exists key, t' = sql_delete key t)).
Proof.
  destruct c as [rt e r], s as [d k]. simpl. intros ->.
  unfold serve; simpl. destruct rt; simpl.
  - unfold createNote, db_Exec, run_stmt; simpl.
    destruct (json_decode (Body r)) as [p|err]; simpl; [|eauto].
    destruct d as [h|]; simpl; [|eauto].
    destruct (stmt_err e); simpl; [eauto|].
    destruct (sql_insert (Title p) (Content p) (now e) t) as [[id t']|] eqn:Hins;
      simpl; [|eauto].
    exists t'. split.
    + destruct (json_Marshal_Note _); reflexivity.
    + right; left. eauto.
  - exists t. split; [|now left].
    change (disk (world_of (getNote rowid_of_text e NewRecorder r (mkWorld d (Some t))))
            = Some t).
    unfold getNote.
    destruct (db_QueryRow_Scan _ _ _ _ _) as [|[|msg]|n]; try reflexivity.
    destruct (json_Marshal_Note n); reflexivity.
  - exists t. split; [|now left].
    change (disk (world_of (getNotes e NewRecorder r (mkWorld d (Some t)))) = Some t).
    unfold getNotes.
    destruct (db_Query _ _ _) as [|err|found]; try reflexivity.
    destruct (scan_loop e found nil_slice) as [ns|err]; [|reflexivity].
    destruct (json_Marshal_Notes ns); reflexivity.
  - unfold updateNote, db_Exec, run_stmt; simpl.
    destruct (json_decode (Body r)) as [p|err]; simpl; [|eauto].
    destruct d as [h|]; simpl; [|eauto].
    destruct (stmt_err e); simpl; [eauto|].
    eexists. split; [reflexivity|]. right; right; left. eauto.
  - unfold deleteNote, db_Exec, run_stmt; simpl.
    destruct d as [h|]; simpl; [|eauto].
    destruct (stmt_err e); simpl; [eauto|].
    eexists. split; [reflexivity|]. right; right; right. eauto.
Qed.

Lemma serve_keyed (c : Call) (s : World) (t : Table) :
  disk s = Some t -> keyed t ->
  exists t', disk (world_of (serve json_decode rowid_of_text c s)) = Some t' /\ keyed t'.
Proof.
  intros Hdisk Hk.
  destruct (serve_disk c s Hdisk)
    as [t' [Ht' [E|[[ti [co [a [id Hins]]]]|[[ti [co [key E]]]|[key E]]]]]];
    exists t'; (split; [exact Ht'|]).
  - now subst t'.
  - eapply keyed_insert; eauto.
  - subst t'. now apply keyed_update.
  - subst t'. now apply keyed_delete.
Qed.

(** X9: Whatever requests are served, a table in increasing rowid order stays
    so: no two rows share a rowid, none exceeds the sequence entry, and a
    key matches at most one row. *)
Theorem run_keeps_keys (calls : list Call) (s : World) (t : Table) :
  disk s = Some t -> keyed t ->
  exists t',
    disk (run json_decode rowid_of_text calls s) = Some t' /\
    keyed t' /\
    NoDup (map ID (rows t')) /\
    (forall key, rows_matching key t' <= 1).
Proof.
  revert s t. induction calls as [|c calls IH]; intros s t Hdisk Hk; simpl.
  - exists t. split; [exact Hdisk|]. split; [exact Hk|]. destruct Hk as [Hs _]. split.
    + apply StronglySorted_Sorted in Hs.
      clear -Hs. induction Hs as [|a l Hs IH Hhd]; constructor; auto.
      intros Hin. assert (Hall : Forall (Z.lt a) l).
      { apply Sorted_extends; [intros x y z; lia|]. now constructor. }
      rewrite Forall_forall in Hall. apply Hall in Hin. lia.
    + intros key. unfold rows_matching.
      pose proof (keyed_one_match key (rows t) Hs). lia.
  - destruct (serve_keyed c s Hdisk Hk) as [t1 [Hd1 Hk1]].
    exact (IH _ _ Hd1 Hk1).
Qed.

(** X10: The rowids handed out during a run are strictly increasing, and all lie
    above the sequence entry the run started from: a rowid is never handed
    out twice, also after its row was deleted. *)
Theorem assigned_ids_increasing (calls : list Call) (s : World) :
  StronglySorted Z.lt (assigned_ids json_decode rowid_of_text calls s) /\
  Forall (fun id => world_seq s < id)
         (assigned_ids json_decode rowid_of_text calls s).
Proof.
  revert s. induction calls as [|c calls IH]; intros s; simpl.
  - split; constructor.
  - destruct (serve_effect json_decode rowid_of_text c s) as [_ Hstep].
    destruct (IH (world_of (serve json_decode rowid_of_text c s))) as [Hs Hall].
    destruct (assigned_id json_decode c s) as [id|].
    + destruct Hstep as [Hlt Heq]. rewrite Heq in Hall. split.
      * constructor; assumption.
      * constructor; [exact Hlt|].
        eapply Forall_impl; [|exact Hall]. simpl. intros a Ha. lia.
    + rewrite Hstep in Hall. split; assumption.
Qed.

(** X11: An id that is no number (the empty string of a request without the route
    parameter among them) is treated as an id no row has: get-one answers
    404, update and delete answer 200, and the store stays as it was. *)
Theorem non_numeric_id (e : Env) (r : Request) (s : World) (h : DB) (t : Table)
        (p : Note) :
  db s = Some h -> disk s = Some t -> stmt_err e = None ->
  json_decode (Body r) = inl p ->
  rowid_of_text (chi_URLParam r "id") = None ->
  getNote rowid_of_text e NewRecorder r s
    = Done (error_reply StatusNotFound "404 page not found") s /\
  updateNote json_decode rowid_of_text e NewRecorder r s
    = Done (empty_reply StatusOK) s /\
  deleteNote rowid_of_text e NewRecorder r s = Done (empty_reply StatusOK) s.
Proof.
  intros Hdb Hdisk Hstmt Hdec Hkey. split; [|split].
  - unfold getNote, db_QueryRow_Scan.
    now rewrite Hdb, Hstmt, Hdisk, Hkey, select_none_key.
  - unfold updateNote. rewrite Hdec.
    destruct (db_Exec_update rowid_of_text e s (Title p) (Content p)
                (chi_URLParam r "id") Hdb Hdisk Hstmt) as [res ->].
    rewrite Hkey, (update_no_match _ _ _ _ (rows_matching_none_key t)).
    now rewrite (world_eta _ Hdb Hdisk).
  - unfold deleteNote.
    destruct (db_Exec_delete rowid_of_text e s (chi_URLParam r "id")
                Hdb Hdisk Hstmt) as [res ->].
    rewrite Hkey, (delete_no_match _ _ (rows_matching_none_key t)).
    now rewrite (world_eta _ Hdb Hdisk).
Qed.

(** X12: Of a decoded body only the title and the content are used: two bodies
    that agree on them get the same answer and the same store from
    [createNote], and from [updateNote] on the same id, whatever id and
    created_at they carry. *)
Theorem body_id_and_created_at_ignored (e : Env) (w : ResponseWriter)
        (r r' : Request) (s : World) (p p' : Note) :
  json_decode (Body r) = inl p -> json_decode (Body r') = inl p' ->
  Title p = Title p' -> Content p = Content p' ->
  chi_URLParam r "id" = chi_URLParam r' "id" ->
  createNote json_decode rowid_of_text e w r s
    = createNote json_decode rowid_of_text e w r' s /\
  updateNote json_decode rowid_of_text e w r s
    = updateNote json_decode rowid_of_text e w r' s.
Proof.
  intros Hp Hp' Ht Hc Hid. unfold createNote, updateNote.
  rewrite Hp, Hp', Hid. simpl. rewrite Ht, Hc. split; [|reflexivity].
  destruct (db_Exec _ _ _ _ _) as [|err|res s']; try reflexivity.
  unfold json_Marshal_Note, set_ID, set_CreatedAt; simpl. now rewrite Ht, Hc.
Qed.

(** X13: When the clock reading does not marshal (a year past 9999), [createNote]
    answers 400 with the marshalling error, yet the INSERT has gone through:
    the table has gained the row. *)
Theorem createNote_marshal_failure_keeps_row (e : Env) (r : Request) (s : World)
        (h : DB) (t : Table) (p : Note) (id : Z) :
  json_decode (Body r) = inl p ->
  db s = Some h -> disk s = Some t -> stmt_err e = None ->
  new_rowid t = Some id ->
  ~ time_in_range (now e) ->
  createNote json_decode rowid_of_text e NewRecorder r s
  = Done (error_reply StatusBadRequest marshal_time_error)
         (mkWorld (Some h)
            (Some (mkTable (rows t ++ [mkNote id (Title p) (Content p) (now e)]) id))).
Proof.
  intros Hdec Hdb Hdisk Hstmt Hid Htime.
  unfold createNote. rewrite Hdec. simpl.
  rewrite (db_Exec_insert rowid_of_text e s (Title p) (Content p) (now e)
             Hdb Hdisk Hstmt Hid).
  simpl. rewrite json_Marshal_Note_out_of_range by exact Htime. reflexivity.
Qed.

Lemma error_reply_well_formed (w : ResponseWriter) (code : Z) (msg : string) :
  w = error_reply code msg -> 400 <= code -> well_formed_reply w code.
Proof.
  intros -> Hcode. unfold well_formed_reply; simpl.
  assert (H : (code <? 400) = false) by (apply Z.ltb_ge; exact Hcode).
  rewrite H. repeat split; try reflexivity; [lia|eauto].
Qed.

Lemma json_reply_well_formed (w : ResponseWriter) (code : Z) (j : json) :
  w = json_reply code j -> code < 400 -> well_formed_reply w code.
Proof.
  intros -> Hcode. unfold well_formed_reply; simpl.
  assert (H : (code <? 400) = true) by (apply Z.ltb_lt; exact Hcode).
  rewrite H. repeat split; try reflexivity; [eauto|lia].
Qed.

Lemma empty_reply_well_formed (w : ResponseWriter) (code : Z) :
  w = empty_reply code -> code < 400 -> well_formed_reply w code.
Proof.
  intros -> Hcode. unfold well_formed_reply; simpl.
  assert (H : (code <? 400) = true) by (apply Z.ltb_lt; exact Hcode).
  rewrite H. repeat split; try reflexivity; [auto|lia].
Qed.

Ltac reply_shape :=
  first [ eapply error_reply_well_formed; [reflexivity | vm_compute; discriminate]
        | eapply json_reply_well_formed; reflexivity
        | eapply empty_reply_well_formed; reflexivity ].

Ltac reply_case :=
  let H := fresh "H" in
  simpl; intros H;
  first [ discriminate H
        | injection H as <-; eexists; split; [ | reply_shape ]; simpl; tauto ].

(** X14: Every answer a route gives carries one of the route's status codes, with
    the headers and the body that go with the code: [createNote] 201, 400 or
    500; [getNote] 200, 400, 404 or 500; [getNotes] and [updateNote] 200, 400
    or 500; [deleteNote] 200 or 500. *)
Theorem status_codes (c : Call) (s : World) (w : ResponseWriter) :
  response_of (serve json_decode rowid_of_text c s) = Some w ->
  exists code, In code (statuses (route c)) /\ well_formed_reply w code.
Proof.
  destruct c as [rt e r]. unfold serve; simpl. destruct rt; simpl.
  - unfold createNote.
    destruct (json_decode (Body r)) as [p|err]; [|reply_case].
    cbv zeta.
    destruct (db_Exec _ _ _ _ _) as [|err|res s']; try reply_case.
    destruct (json_Marshal_Note _) as [j|err]; reply_case.
  - unfold getNote. cbv zeta.
    destruct (db_QueryRow_Scan _ _ _ _ _) as [|[|msg]|n]; try reply_case.
    destruct (json_Marshal_Note n) as [j|err]; reply_case.
  - unfold getNotes.
    destruct (db_Query _ _ _) as [|err|found]; try reply_case.
    destruct (scan_loop e found nil_slice) as [ns|err]; try reply_case.
    destruct (json_Marshal_Notes ns) as [j|err]; reply_case.
  - unfold updateNote. cbv zeta.
    destruct (json_decode (Body r)) as [p|err]; [|reply_case].
    destruct (db_Exec _ _ _ _ _) as [|err|res s']; reply_case.
  - unfold deleteNote. cbv zeta.
    destruct (db_Exec _ _ _ _ _) as [|err|res s']; reply_case.
Qed.

Lemma serve_nil_handle (c : Call) (s : World) :
  db s = None ->
  world_of (serve json_decode rowid_of_text c s) = s /\
  (response_of (serve json_decode rowid_of_text c s) = None \/
   exists err,
     json_decode (Body (request c)) = inr err /\
     response_of (serve json_decode rowid_of_text c s)
     = Some (error_reply StatusBadRequest err)).
Proof.
  intros Hdb. destruct c as [rt e r]. unfold serve; simpl. destruct rt; simpl.
  - unfold createNote, db_Exec.
    destruct (json_decode (Body r)) as [p|err]; simpl; [|eauto].
    rewrite Hdb. auto.
  - unfold getNote, db_QueryRow_Scan. rewrite Hdb. auto.
  - unfold getNotes, db_Query. rewrite Hdb. auto.
  - unfold updateNote, db_Exec.
    destruct (json_decode (Body r)) as [p|err]; simpl; [|eauto].
    rewrite Hdb. auto.
  - unfold deleteNote, db_Exec. rewrite Hdb. auto.
Qed.

Lemma run_nil_handle (calls : list Call) (s : World) :
  db s = None -> run json_decode rowid_of_text calls s = s.
Proof.
  intros Hdb. induction calls as [|a calls IH]; simpl; [reflexivity|].
  now rewrite (proj1 (serve_nil_handle a s Hdb)).
Qed.

(** X15: With the nil handle (the state [initialization] leaves [main] in) no
    request is answered from the store: a call panics, or is refused with
    400 before its statement because its body does not decode, and the file
    stays as it is through any sequence of requests. *)
Theorem nil_handle_never_touches_store (calls : list Call) (c : Call) (s : World) :
  db s = None ->
  run json_decode rowid_of_text calls s = s /\
  (response_of (serve json_decode rowid_of_text c s) = None \/
   exists err,
     json_decode (Body (request c)) = inr err /\
     response_of (serve json_decode rowid_of_text c s)
     = Some (error_reply StatusBadRequest err)).
Proof.
  intros Hdb. split; [now apply run_nil_handle|].
  exact (proj2 (serve_nil_handle c s Hdb)).
Qed.

(** X19: All [main] ever does to the file is to make sure the table exists:
    whatever requests arrive, the process ends up with the nil handle and the
    table [initialization] found or created, every row as it was. *)
Theorem main_only_ensures_the_table (e : Env) (calls : list Call) (d : option Table)
        (s' : World) :
  main json_decode rowid_of_text e calls d = Some s' ->
  db s' = None /\
  disk s' = Some (match d with
                  | Some t => t
                  | None => mkTable [] 0
                  end).
Proof.
  unfold main, initialization, db_Exec, run_stmt, boot; simpl.
  destruct (stmt_err e); [discriminate|].
  destruct d as [t|]; intros H; injection H as <-;
    rewrite run_nil_handle by reflexivity; simpl; auto.
Qed.


(** X17: [getNote] answers by what the SELECT finds: 200 with the JSON of the
    first row whose rowid is the id, a row of the table, or 404 when there
    is none. *)
Theorem getNote_returns_row (e : Env) (r : Request) (s : World) (h : DB) (t : Table) :
  db s = Some h -> disk s = Some t -> stmt_err e = None ->
  (forall n, scan_err e n = None) -> rows_in_range t ->
  (forall n, sql_select (rowid_of_text (chi_URLParam r "id")) t = Some n ->
             In n (rows t) /\
             rowid_of_text (chi_URLParam r "id") = Some (ID n) /\
             getNote rowid_of_text e NewRecorder r s
             = Done (json_reply StatusOK (note_json n)) s) /\
  (sql_select (rowid_of_text (chi_URLParam r "id")) t = None ->
   getNote rowid_of_text e NewRecorder r s
   = Done (error_reply StatusNotFound "404 page not found") s).
Proof.
  intros Hdb Hdisk Hstmt Hscan Hrange. split.
  - intros n Hsel.
    assert (Hfound := Hsel). unfold sql_select in Hfound.
    apply find_some in Hfound. destruct Hfound as [Hin Hm].
    split; [exact Hin|]. split.
    + destruct (rowid_of_text (chi_URLParam r "id")) as [k|]; simpl in Hm;
        [|discriminate].
      apply Z.eqb_eq in Hm. now subst k.
    + apply getNote_found with (h := h) (t := t); auto.
      unfold rows_in_range in Hrange. rewrite Forall_forall in Hrange. auto.
  - intros Hsel. unfold getNote, db_QueryRow_Scan.
    now rewrite Hdb, Hstmt, Hdisk, Hsel.
Qed.

(** X18: Whatever [updateNote] does, the table keeps its rowids, in their order,
    the created_at of every row, and its sequence entry. *)
Theorem update_keeps_ids_and_times (e : Env) (w : ResponseWriter) (r : Request)
        (s : World) (t : Table) :
  disk s = Some t ->
  exists t',
    disk (world_of (updateNote json_decode rowid_of_text e w r s)) = Some t' /\
    map ID (rows t') = map ID (rows t) /\
    map CreatedAt (rows t') = map CreatedAt (rows t) /\
    seq t' = seq t.
Proof.
  intros Hdisk. unfold updateNote, db_Exec, run_stmt.
  destruct (json_decode (Body r)) as [p|err]; simpl; [|eauto].
  destruct (db s) as [h|]; simpl; [|eauto].
  destruct (stmt_err e); simpl; [eauto|].
  rewrite Hdisk. simpl. eexists. split; [reflexivity|]. simpl.
  split; [apply map_ID_update|]. split; [|reflexivity].
  rewrite map_map. apply map_ext. intros n. now destruct (matches _ n).
Qed.

End Coverage.

(** ** These theorems at sample inputs *)

Lemma keyed_empty_table : keyed empty_table.
Proof. split; constructor. Qed.

Lemma keyed_two_notes : keyed two_notes.
Proof.
  unfold keyed, two_notes; simpl.
  split; repeat first [simpl; lia | constructor].
Qed.

Lemma two_notes_in_range : rows_in_range two_notes.
Proof. repeat (constructor; [vm_compute; split; discriminate|]). constructor. Qed.

Lemma getNotes_lists_rows_witness :
  (rows two_notes <> [] ->
   getNotes (calm t1) NewRecorder (with_body "") (open_world two_notes)
   = Done (json_reply StatusOK (JArray (map note_json (rows two_notes))))
          (open_world two_notes)) /\
  (rows two_notes = [] ->
   getNotes (calm t1) NewRecorder (with_body "") (open_world two_notes)
   = Done (json_reply StatusOK JNull) (open_world two_notes)).
Proof.
  apply (@getNotes_lists_rows (calm t1) (with_body "") (open_world two_notes)
           notes_db two_notes);
    try reflexivity.
  exact two_notes_in_range.
Defined.

Lemma created_note_is_listed_witness :
  getNotes (calm t1) NewRecorder (with_body "")
    (world_of (createNote sample_decode decimal_rowid (lost_id t1) NewRecorder
                 (with_body new_body) (open_world two_notes)))
  = Done (json_reply StatusOK
            (JArray (map note_json (rows two_notes)
                     ++ [note_json (mkNote 5 (Title new_payload)
                                      (Content new_payload) (now (lost_id t1)))])))
         (world_of (createNote sample_decode decimal_rowid (lost_id t1) NewRecorder
                      (with_body new_body) (open_world two_notes))).
Proof.
  apply (@created_note_is_listed sample_decode decimal_rowid (lost_id t1) (calm t1)
           (with_body new_body) (with_body "") (open_world two_notes) notes_db
           two_notes new_payload 5);
    try reflexivity.
  - vm_compute. split; discriminate.
  - exact two_notes_in_range.
Defined.

Lemma delete_then_get_not_found_witness :
  exists t',
    deleteNote decimal_rowid (calm t1) NewRecorder (with_id "3" "") (open_world two_notes)
    = Done (empty_reply StatusOK) (mkWorld (Some notes_db) (Some t')) /\
    getNote decimal_rowid (calm t1) NewRecorder (with_id "3" "")
      (mkWorld (Some notes_db) (Some t'))
    = Done (error_reply StatusNotFound "404 page not found")
           (mkWorld (Some notes_db) (Some t')) /\
    seq t' = seq two_notes /\
    (forall key, key <> decimal_rowid (chi_URLParam (with_id "3" "") "id") ->
                 sql_select key t' = sql_select key two_notes).
Proof.
  apply (@delete_then_get_not_found decimal_rowid (calm t1) (calm t1)
           (with_id "3" "") (with_id "3" "") (open_world two_notes) notes_db
           two_notes);
    reflexivity.
Defined.

Lemma delete_removes_one_row_witness :
  exists t',
    world_of (deleteNote decimal_rowid (calm t1) NewRecorder (with_id "1" "")
                (open_world two_notes))
    = mkWorld (Some notes_db) (Some t') /\
    S (List.length (rows t')) = List.length (rows two_notes) /\
    (forall m, In m (rows t') <->
               In m (rows two_notes) /\ ID m <> ID (mkNote 1 "Test" "Body" t0)).
Proof.
  apply (@delete_removes_one_row decimal_rowid (calm t1) (with_id "1" "")
           (open_world two_notes) notes_db two_notes (mkNote 1 "Test" "Body" t0));
    try reflexivity.
  exact keyed_two_notes.
Defined.


Lemma missing_table_is_500_witness :
  createNote sample_decode decimal_rowid (calm t1) NewRecorder
    (with_id "1" new_body) (mkWorld (Some notes_db) None)
    = Done (error_reply StatusInternalServerError no_such_table)
           (mkWorld (Some notes_db) None) /\
  getNote decimal_rowid (calm t1) NewRecorder (with_id "1" new_body)
    (mkWorld (Some notes_db) None)
    = Done (error_reply StatusInternalServerError no_such_table)
           (mkWorld (Some notes_db) None) /\
  getNotes (calm t1) NewRecorder (with_id "1" new_body) (mkWorld (Some notes_db) None)
    = Done (error_reply StatusInternalServerError no_such_table)
           (mkWorld (Some notes_db) None) /\
  updateNote sample_decode decimal_rowid (calm t1) NewRecorder
    (with_id "1" new_body) (mkWorld (Some notes_db) None)
    = Done (error_reply StatusInternalServerError no_such_table)
           (mkWorld (Some notes_db) None) /\
  deleteNote decimal_rowid (calm t1) NewRecorder (with_id "1" new_body)
    (mkWorld (Some notes_db) None)
    = Done (error_reply StatusInternalServerError no_such_table)
           (mkWorld (Some notes_db) None).
Proof.
  apply (@missing_table_is_500 sample_decode decimal_rowid (calm t1)
           (with_id "1" new_body) (mkWorld (Some notes_db) None) notes_db
           new_payload);
    reflexivity.
Defined.

Lemma initialization_ensures_table_witness :
  exists s',
    initialization decimal_rowid (calm t0) (boot (Some two_notes)) = Some s' /\
    db s' = db (boot (Some two_notes)) /\
    (forall t, disk (boot (Some two_notes)) = Some t -> disk s' = Some t) /\
    (disk (boot (Some two_notes)) = None -> disk s' = Some (mkTable [] 0)) /\
    initialization decimal_rowid (calm t1) s' = Some s'.
Proof.
  apply (@initialization_ensures_table decimal_rowid (calm t0) (calm t1)
           (boot (Some two_notes)));
    reflexivity.
Defined.

Lemma run_keeps_keys_witness :
  exists t',
    disk (run sample_decode decimal_rowid sample_calls (open_world empty_table))
    = Some t' /\
    keyed t' /\
    NoDup (map ID (rows t')) /\
    (forall key, rows_matching key t' <= 1).
Proof.
  apply (@run_keeps_keys sample_decode decimal_rowid sample_calls
           (open_world empty_table) empty_table);
    [reflexivity | exact keyed_empty_table].
Defined.

Lemma non_numeric_id_witness :
  decimal_rowid (chi_URLParam (with_body new_body) "id") = None /\
  (getNote decimal_rowid (calm t1) NewRecorder (with_body new_body)
     (open_world two_notes)
   = Done (error_reply StatusNotFound "404 page not found") (open_world two_notes) /\
   updateNote sample_decode decimal_rowid (calm t1) NewRecorder (with_body new_body)
     (open_world two_notes)
   = Done (empty_reply StatusOK) (open_world two_notes) /\
   deleteNote decimal_rowid (calm t1) NewRecorder (with_body new_body)
     (open_world two_notes)
   = Done (empty_reply StatusOK) (open_world two_notes)).
Proof.
  split; [reflexivity|].
  apply (@non_numeric_id sample_decode decimal_rowid (calm t1) (with_body new_body)
           (open_world two_notes) notes_db two_notes new_payload);
    reflexivity.
Defined.

Lemma body_id_and_created_at_ignored_witness :
  lenient_decode (Body (with_id "1" id_body)) = inl (mkNote 7 "" "" t1) /\
  lenient_decode (Body (with_id "1" "{}")) = inl zeroNote /\
  (createNote lenient_decode decimal_rowid (calm t1) NewRecorder (with_id "1" id_body)
     (open_world one_note)
   = createNote lenient_decode decimal_rowid (calm t1) NewRecorder (with_id "1" "{}")
       (open_world one_note) /\
   updateNote lenient_decode decimal_rowid (calm t1) NewRecorder (with_id "1" id_body)
     (open_world one_note)
   = updateNote lenient_decode decimal_rowid (calm t1) NewRecorder (with_id "1" "{}")
       (open_world one_note)).
Proof.
  split; [reflexivity|]. split; [reflexivity|].
  apply (@body_id_and_created_at_ignored lenient_decode decimal_rowid (calm t1)
           NewRecorder (with_id "1" id_body) (with_id "1" "{}")
           (open_world one_note) (mkNote 7 "" "" t1) zeroNote);
    reflexivity.
Defined.

Lemma createNote_marshal_failure_keeps_row_witness :
  createNote sample_decode decimal_rowid (calm year_10000) NewRecorder
    (with_body test_body) (open_world empty_table)
  = Done (error_reply StatusBadRequest marshal_time_error)
         (mkWorld (Some notes_db)
            (Some (mkTable (rows empty_table
                            ++ [mkNote 1 (Title test_payload) (Content test_payload)
                                  (now (calm year_10000))]) 1))).
Proof.
  apply (@createNote_marshal_failure_keeps_row sample_decode decimal_rowid
           (calm year_10000) (with_body test_body) (open_world empty_table)
           notes_db empty_table test_payload 1);
    try reflexivity.
  vm_compute. intros [_ H]. apply H. reflexivity.
Defined.

Lemma status_codes_witness :
  exists code,
    In code (statuses (route (mkCall GET_note_id (calm t1) (with_id "7" "")))) /\
    well_formed_reply (error_reply StatusNotFound "404 page not found") code.
Proof.
  apply (@status_codes sample_decode decimal_rowid
           (mkCall GET_note_id (calm t1) (with_id "7" "")) (open_world one_note)
           (error_reply StatusNotFound "404 page not found")).
  reflexivity.
Defined.

Lemma nil_handle_never_touches_store_witness :
  run sample_decode decimal_rowid sample_calls (boot (Some one_note))
  = boot (Some one_note) /\
  (response_of (serve sample_decode decimal_rowid
                  (mkCall GET_notes (calm t1) (with_body "")) (boot (Some one_note)))
   = None \/
   exists err,
     sample_decode (Body (request (mkCall GET_notes (calm t1) (with_body ""))))
     = inr err /\
     response_of (serve sample_decode decimal_rowid
                    (mkCall GET_notes (calm t1) (with_body ""))
                    (boot (Some one_note)))
     = Some (error_reply StatusBadRequest err)).
Proof.
  apply (@nil_handle_never_touches_store sample_decode decimal_rowid sample_calls
           (mkCall GET_notes (calm t1) (with_body "")) (boot (Some one_note))).
  reflexivity.
Defined.


Lemma getNote_returns_row_witness :
  (forall n,
      sql_select (decimal_rowid (chi_URLParam (with_id "3" "") "id")) two_notes
      = Some n ->
      In n (rows two_notes) /\
      decimal_rowid (chi_URLParam (with_id "3" "") "id") = Some (ID n) /\
      getNote decimal_rowid (calm t1) NewRecorder (with_id "3" "") (open_world two_notes)
      = Done (json_reply StatusOK (note_json n)) (open_world two_notes)) /\
  (sql_select (decimal_rowid (chi_URLParam (with_id "3" "") "id")) two_notes = None ->
   getNote decimal_rowid (calm t1) NewRecorder (with_id "3" "") (open_world two_notes)
   = Done (error_reply StatusNotFound "404 page not found") (open_world two_notes)).
Proof.
  apply (@getNote_returns_row decimal_rowid (calm t1) (with_id "3" "")
           (open_world two_notes) notes_db two_notes);
    try reflexivity.
  exact two_notes_in_range.
Defined.

Lemma update_keeps_ids_and_times_witness :
  exists t',
    disk (world_of (updateNote sample_decode decimal_rowid (calm t1) NewRecorder
                      (with_id "3" test_body) (open_world two_notes)))
    = Some t' /\
    map ID (rows t') = map ID (rows two_notes) /\
    map CreatedAt (rows t') = map CreatedAt (rows two_notes) /\
    seq t' = seq two_notes.
Proof.
  apply (@update_keeps_ids_and_times sample_decode decimal_rowid (calm t1)
           NewRecorder (with_id "3" test_body) (open_world two_notes) two_notes).
  reflexivity.
Defined.

Lemma main_only_ensures_the_table_witness :
  main sample_decode decimal_rowid (calm t0) sample_calls (Some two_notes)
  = Some (boot (Some two_notes)) /\
  db (boot (Some two_notes)) = None /\
  disk (boot (Some two_notes)) = Some two_notes.
Proof.
  split; [reflexivity|].
  apply (@main_only_ensures_the_table sample_decode decimal_rowid (calm t0)
           sample_calls (Some two_notes) (boot (Some two_notes))).
  reflexivity.
Defined.
